(** * Prompt templates of [llama_index/prompts/base.py]

    A shallow embedding of the prompt-template classes
    ([PromptTemplate], [ChatPromptTemplate], [SelectorPromptTemplate],
    [LangchainPromptTemplate]) together with the part of the Python
    runtime they rest on: exceptions, [str.format], [copy.deepcopy] over an
    object store, and local-variable deletion. *)

From Stdlib Require Import Ascii String NArith.
From stdpp Require Import gmap strings list fin_maps.

Local Open Scope string_scope.
Local Open Scope list_scope.

(** ** Python exceptions and results *)

(** The exceptions the module can raise.  [ValueError] stands for every
    malformed-format-string error of [str.format] and for the constructor
    check of [LangchainPromptTemplate]; the message is not modelled. *)
Inductive exn :=
| KeyError (key : string)
| IndexError
| ValueError
| AttributeError
| UnboundLocalError (name : string).

(** The outcome of running a piece of Python: a value, a raised exception,
    or [Undefined] when the embedding assigns no behaviour (a reference that
    does not resolve to an object of the expected class, or a feature of
    [str.format] outside the modelled fragment). *)
Inductive result (A : Type) :=
| Ok (a : A)
| Raise (e : exn)
| Undefined.

Arguments Ok {A} a.
Arguments Raise {A} e.
Arguments Undefined {A}.

#[global] Instance result_ret : MRet result := fun A a => Ok a.

#[global] Instance result_bind : MBind result := fun A B f m =>
  match m with
  | Ok a => f a
  | Raise e => Raise e
  | Undefined => Undefined
  end.

Definition raises {A} (m : result A) : Prop := exists e, m = Raise e.

(** ** Python strings

    A Python [str] is represented by its UTF-8 encoding: a [string] is a
    list of bytes, a byte below 128 is an ASCII character, and a character
    outside ASCII is a lead byte followed by continuation bytes (128 to
    191).  The delimiters of the format-string syntax are ASCII and no byte
    of a character outside ASCII equals one, so the scanner reads the text
    byte by byte. *)

Definition is_continuation (c : ascii) : bool :=
  let n := N_of_ascii c in ((128 <=? n) && (n <? 192))%N.

(** What is left of [s] after the continuation bytes it starts with. *)
Fixpoint drop_continuation (s : string) : string :=
  match s with
  | EmptyString => EmptyString
  | String c s' => if is_continuation c then drop_continuation s' else s
  end.

(** ** Python's format-string syntax

    [str.format] and [string.Formatter.parse] share one scanner
    (CPython's [MarkupIterator]).  A format string is a sequence of chunks:
    literal text optionally followed by a replacement field
    [{field_name!conversion:format_spec}]. *)

Record field := {
  field_name : string;
  conversion : option ascii;
  format_spec : string
}.

Definition chunk : Type := string * option field.

Definition is_brace (c : ascii) : bool :=
  (Ascii.eqb c "{" || Ascii.eqb c "}")%char.

(** Literal text up to the first brace, and what is left from that brace on. *)
Fixpoint scan_literal (s : string) : string * string :=
  match s with
  | EmptyString => (EmptyString, EmptyString)
  | String c s' =>
      if is_brace c then (EmptyString, s)
      else let '(lit, rest) := scan_literal s' in (String c lit, rest)
  end.

(** The field name runs to the first of [}], [:] and [!]; a [{] is an error,
    and everything between [[] and []] is skipped over unread.  The result is
    the name, the terminator and the text after it. *)
Fixpoint scan_field_name (in_bracket : bool) (s : string)
  : result (string * ascii * string) :=
  match s with
  | EmptyString => Raise ValueError
  | String c s' =>
      if in_bracket then
        '(n, t, r) ← scan_field_name (negb (Ascii.eqb c "]")) s';
        Ok (String c n, t, r)
      else if Ascii.eqb c "{" then Raise ValueError
      else if Ascii.eqb c "[" then
        '(n, t, r) ← scan_field_name true s';
        Ok (String c n, t, r)
      else if (Ascii.eqb c "}" || Ascii.eqb c ":" || Ascii.eqb c "!")%bool
      then Ok (EmptyString, c, s')
      else
        '(n, t, r) ← scan_field_name false s';
        Ok (String c n, t, r)
  end.

(** The format spec runs to the [}] that closes the field; nested braces are
    counted ([depth] is the number of braces opened inside the spec). *)
Fixpoint scan_format_spec (depth : nat) (s : string) : result (string * string) :=
  match s with
  | EmptyString => Raise ValueError
  | String c s' =>
      if Ascii.eqb c "{" then
        '(sp, r) ← scan_format_spec (S depth) s';
        Ok (String c sp, r)
      else if Ascii.eqb c "}" then
        match depth with
        | O => Ok (EmptyString, s')
        | S d =>
            '(sp, r) ← scan_format_spec d s';
            Ok (String c sp, r)
        end
      else
        '(sp, r) ← scan_format_spec depth s';
        Ok (String c sp, r)
  end.

(** [parse_field]: the text after an opening [{], up to and including the
    closing [}].  The conversion is one character, whatever it is; of a
    character outside ASCII the lead byte is recorded. *)
Definition parse_field (s : string) : result (field * string) :=
  '(name, t, r) ← scan_field_name false s;
  if Ascii.eqb t "}" then
    Ok ({| field_name := name; conversion := None; format_spec := "" |}, r)
  else if Ascii.eqb t "!" then
    match r with
    | EmptyString => Raise ValueError
    | String conv r1 =>
        match drop_continuation r1 with
        | EmptyString => Raise ValueError
        | String c2 r2 =>
            if Ascii.eqb c2 "}" then
              Ok ({| field_name := name; conversion := Some conv;
                     format_spec := "" |}, r2)
            else if Ascii.eqb c2 ":" then
              '(sp, r3) ← scan_format_spec 0 r2;
              Ok ({| field_name := name; conversion := Some conv;
                     format_spec := sp |}, r3)
            else Raise ValueError
        end
    end
  else
    '(sp, r3) ← scan_format_spec 0 r;
    Ok ({| field_name := name; conversion := None; format_spec := sp |}, r3).

(** One step of the scanner. *)
Inductive markup :=
| MDone
| MChunk (c : chunk) (rest : string)
| MError (e : exn).

Definition MarkupIterator_next (s : string) : markup :=
  match s with
  | EmptyString => MDone
  | _ =>
      let '(lit, r) := scan_literal s in
      match r with
      | EmptyString => MChunk (lit, None) EmptyString
      | String c EmptyString => MError ValueError
      | String c (String c' r'' as r') =>
          if Ascii.eqb c' c then MChunk (lit +:+ String c EmptyString, None) r''
          else if Ascii.eqb c "}" then MError ValueError
          else
            match parse_field r' with
            | Ok (f, rest) => MChunk (lit, Some f) rest
            | Raise e => MError e
            | Undefined => MError ValueError
            end
      end
  end.

(** The chunks the scanner yields before it stops, and the error it stops
    with, if any.  The scanner is lazy: chunks before a malformed place are
    delivered.  Every step consumes at least one character, so [length s]
    steps exhaust [s]. *)
Fixpoint markup_iter (fuel : nat) (s : string) : list chunk * option exn :=
  match fuel with
  | O => ([], None)
  | S n =>
      match MarkupIterator_next s with
      | MDone => ([], None)
      | MChunk c rest =>
          let '(cs, e) := markup_iter n rest in (c :: cs, e)
      | MError e => ([], Some e)
      end
  end.

Definition markup_chunks (s : string) : list chunk * option exn :=
  markup_iter (String.length s) s.

(** [string.Formatter().parse(s)], consumed to the end. *)
Definition formatter_parse (s : string) : result (list chunk) :=
  match markup_chunks s with
  | (cs, None) => Ok cs
  | (_, Some e) => Raise e
  end.

(** ** [str.format] with keyword arguments only

    Every call in the module has the shape [template.format] applied to unpacked keyword arguments: the
    positional tuple is empty and the values are strings. *)

(** The part of a field name before the first [.] or [[], and the rest. *)
Fixpoint field_name_split (s : string) : string * string :=
  match s with
  | EmptyString => (EmptyString, EmptyString)
  | String c s' =>
      if (Ascii.eqb c "." || Ascii.eqb c "[")%bool then (EmptyString, s)
      else let '(first, rest) := field_name_split s' in (String c first, rest)
  end.

(** [Py_UNICODE_TODECIMAL], byte by byte: an ASCII digit has its value and
    any other ASCII character has none.  A byte of a character outside
    ASCII is left [Undefined]: whether such a character is a decimal digit
    (as the Arabic-Indic digits are) is a matter of the Unicode database of
    the interpreter. *)
Definition digit_value (c : ascii) : result (option N) :=
  let n := N_of_ascii c in
  if (128 <=? n)%N then Undefined
  else if ((48 <=? n) && (n <=? 57))%N then Ok (Some (n - 48)%N)
  else Ok None.

Definition PY_SSIZE_T_MAX : N := 9223372036854775807.

(** [get_integer]: [Ok None] for a name that is not a decimal number (the
    C function's -1), the number otherwise; a number that does not fit a
    [Py_ssize_t] is a [ValueError].  The characters are read from the left,
    and the first one that is no digit ends the reading. *)
Fixpoint get_integer_from (acc : N) (s : string) : result (option N) :=
  match s with
  | EmptyString => Ok (Some acc)
  | String c s' =>
      d ← digit_value c;
      match d with
      | None => Ok None
      | Some d =>
          if (((PY_SSIZE_T_MAX - d) / 10) <? acc)%N then Raise ValueError
          else get_integer_from (acc * 10 + d)%N s'
      end
  end.

Definition get_integer (s : string) : result (option N) :=
  match s with
  | EmptyString => Ok None
  | _ => get_integer_from 0%N s
  end.

(** [get_field_object]: the object a field name designates.  A numeric or
    empty first part indexes the positional tuple, which is empty here; any
    other first part is looked up among the keyword arguments.  The value is
    returned with the attribute and index accessors still to apply. *)
Definition get_field_object (name : string) (kwargs : gmap string string)
  : result (string * string) :=
  let '(first, rest) := field_name_split name in
  idx ← get_integer first;
  match idx with
  | Some _ => Raise IndexError
  | None =>
      match first with
      | EmptyString => Raise IndexError
      | _ =>
          match kwargs !! first with
          | Some v => Ok (v, rest)
          | None => Raise (KeyError first)
          end
      end
  end.

(** [!s] is the identity on a string; [!r] and [!a] are not modelled; any
    other conversion character is a [ValueError]. *)
Definition do_conversion (conv : option ascii) (v : string) : result string :=
  match conv with
  | None => Ok v
  | Some c =>
      if Ascii.eqb c "s" then Ok v
      else if (Ascii.eqb c "r" || Ascii.eqb c "a")%bool then Undefined
      else Raise ValueError
  end.

(** [render_field] on a string value: the empty format spec leaves the
    value as it is; the format-spec mini-language is not modelled. *)
Definition render_field (v : string) (spec : string) : result string :=
  match spec with
  | EmptyString => Ok v
  | _ => Undefined
  end.

(** [format_spec_needs_expanding]: the format spec contains a [{]. *)
Fixpoint format_spec_needs_expanding (spec : string) : bool :=
  match spec with
  | EmptyString => false
  | String c spec' => Ascii.eqb c "{" || format_spec_needs_expanding spec'
  end.

(** [output_markup] and [build_string] inside a format spec, at recursion
    depth 1: a field whose own format spec needs expanding would be built
    at depth 0, which is the [ValueError] of the recursion limit. *)
Definition output_markup_nested (f : field) (kwargs : gmap string string)
  : result string :=
  '(v, rest) ← get_field_object (field_name f) kwargs;
  match rest with
  | EmptyString =>
      v' ← do_conversion (conversion f) v;
      if format_spec_needs_expanding (format_spec f) then Raise ValueError
      else render_field v' (format_spec f)
  | _ => Undefined
  end.

Fixpoint build_string_nested (cs : list chunk) (stop : option exn)
    (kwargs : gmap string string) : result string :=
  match cs with
  | [] => match stop with None => Ok EmptyString | Some e => Raise e end
  | (lit, f) :: cs' =>
      out ← match f with
            | None => Ok EmptyString
            | Some f => output_markup_nested f kwargs
            end;
      tail ← build_string_nested cs' stop kwargs;
      Ok (lit +:+ out +:+ tail)
  end.

(** [output_markup]: look the field up, apply the accessors and the
    conversion, expand the format spec when it contains replacement fields
    of its own, and render, in this order.  Accessors on a string value and
    non-empty format specs are outside the modelled fragment. *)
Definition output_markup (f : field) (kwargs : gmap string string)
  : result string :=
  '(v, rest) ← get_field_object (field_name f) kwargs;
  match rest with
  | EmptyString =>
      v' ← do_conversion (conversion f) v;
      if format_spec_needs_expanding (format_spec f) then
        expanded ← (let '(cs, stop) := markup_chunks (format_spec f) in
                    build_string_nested cs stop kwargs);
        render_field v' expanded
      else render_field v' (format_spec f)
  | _ => Undefined
  end.

(** [build_string]: the chunks are rendered as the scanner delivers them, so
    an error of an earlier field comes before a syntax error further on
    ([stop] is the error the scanner ended with). *)
Fixpoint build_string (cs : list chunk) (stop : option exn)
    (kwargs : gmap string string) : result string :=
  match cs with
  | [] => match stop with None => Ok EmptyString | Some e => Raise e end
  | (lit, f) :: cs' =>
      out ← match f with
            | None => Ok EmptyString
            | Some f => output_markup f kwargs
            end;
      tail ← build_string cs' stop kwargs;
      Ok (lit +:+ out +:+ tail)
  end.

(** [s.format] applied to the keyword arguments [kwargs] *)
Definition str_format (s : string) (kwargs : gmap string string)
  : result string :=
  let '(cs, stop) := markup_chunks s in build_string cs stop kwargs.

(** ** [llama_index.prompts.utils.get_template_vars] *)

(** The names of the fields of a chunk list, empty names left out. *)
Fixpoint chunk_vars (cs : list chunk) : list string :=
  match cs with
  | [] => []
  | (_, Some f) :: cs' =>
      match field_name f with
      | EmptyString => chunk_vars cs'
      | n => n :: chunk_vars cs'
      end
  | (_, None) :: cs' => chunk_vars cs'
  end.

(** Modelled from the spec: the placeholder extractor
    [get_template_vars] of [llama_index/prompts/utils.py], which is not among
    the source files.  Spec 4.1: it returns the placeholder names a template
    string references, in order, without rendering the string, by the
    engine's own substitution syntax.  It is read here as the loop over
    [string.Formatter().parse(template_str)] that keeps every non-empty
    field name. *)
Definition get_template_vars (template_str : string) : result (list string) :=
  cs ← formatter_parse template_str;
  Ok (chunk_vars cs).

(** ** Local variables

    A parameter is a local variable, bound on entry.  [del name] unbinds it,
    and reading an unbound local raises [UnboundLocalError]. *)

Definition DELETE_FAST {A} (name : string) (slot : option A)
  : result (option A) :=
  match slot with
  | Some _ => Ok None
  | None => Raise (UnboundLocalError name)
  end.

Definition LOAD_FAST {A} (name : string) (slot : option A) : result A :=
  match slot with
  | Some a => Ok a
  | None => Raise (UnboundLocalError name)
  end.

(** ** Messages and collaborators *)

(** Modelled from the spec: the role-tagged message [ChatMessage] of
    [llama_index/llms/base.py], whose declaration is not among the source
    files.  Spec 3: a role label plus a content string; the source reads
    [content or ""], so the content may be absent. *)
Record ChatMessage := {
  role : string;
  content : option string
}.

(** [message.content = content] on a message object. *)
Definition set_content (m : ChatMessage) (c : string) : ChatMessage :=
  {| role := role m; content := Some c |}.

(** [message_template.content or ""] *)
Definition content_or_empty (m : ChatMessage) : string :=
  match content m with
  | Some c => c
  | None => ""
  end.

(** What the module imports and only calls: the language-model descriptor,
    the output parser, the messages-to-prompt flattener
    ([llama_index.llms.generic_utils.messages_to_prompt]), the external
    (Langchain) prompt template with its methods [partial], [format] and
    [format_prompt] followed by the message translation, and the constant
    [PromptType.CUSTOM].  They are parameters of the development: nothing
    is known of them but their types.  A [kwargs] argument is, here and
    below, the dictionary a method receives for its keyword arguments. *)
Class Collaborators := {
  LLM : Type;
  OutputParser : Type;
  messages_to_prompt : list ChatMessage -> string;
  LangchainTemplate : Type;
  lc_output_parser : LangchainTemplate -> option OutputParser;
  lc_partial : LangchainTemplate -> gmap string string -> LangchainTemplate;
  lc_format : LangchainTemplate -> gmap string string -> result string;
  lc_format_messages :
    LangchainTemplate -> gmap string string -> result (list ChatMessage);
  PromptType_CUSTOM : string
}.

Section Definitions.
Context `{Collaborators}.

(** ** The object store

    Instances, dictionaries, lists and messages are mutable objects: they
    live in a store and are held by reference, so that sharing and in-place
    update are visible.  Strings are immutable and held by value.  A new
    object takes the next free address. *)

Abbreviation loc := nat (only parsing).

(** Instance attributes of [PromptTemplate]. *)
Record PromptTemplate := {
  pt_template : string;
  pt_kwargs : loc;
  pt_metadata : loc;
  pt_output_parser : option OutputParser
}.

(** Instance attributes of [ChatPromptTemplate]. *)
Record ChatPromptTemplate := {
  cpt_message_templates : loc;
  cpt_kwargs : loc;
  cpt_metadata : loc;
  cpt_output_parser : option OutputParser
}.

Inductive object :=
| DictObj (d : gmap string string)
| ListObj (items : list loc)
| ChatMessageObj (m : ChatMessage)
| PromptTemplateObj (p : PromptTemplate)
| ChatPromptTemplateObj (p : ChatPromptTemplate).

Abbreviation heap := (list object) (only parsing).

Definition alloc (o : object) (h : heap) : loc * heap :=
  (length h, h ++ [o]).

Definition load_dict (h : heap) (l : loc) : result (gmap string string) :=
  match h !! l with Some (DictObj d) => Ok d | _ => Undefined end.

Definition load_list (h : heap) (l : loc) : result (list loc) :=
  match h !! l with Some (ListObj ls) => Ok ls | _ => Undefined end.

Definition load_message (h : heap) (l : loc) : result ChatMessage :=
  match h !! l with Some (ChatMessageObj m) => Ok m | _ => Undefined end.

Definition load_PromptTemplate (h : heap) (l : loc) : result PromptTemplate :=
  match h !! l with Some (PromptTemplateObj p) => Ok p | _ => Undefined end.

Definition load_ChatPromptTemplate (h : heap) (l : loc)
  : result ChatPromptTemplate :=
  match h !! l with Some (ChatPromptTemplateObj p) => Ok p | _ => Undefined end.

(** [d.update(new)] on the dictionary at [l], in place. *)
Definition dict_update (h : heap) (l : loc) (new : gmap string string)
  : result heap :=
  d ← load_dict h l;
  Ok (<[l := DictObj (new ∪ d)]> h).

(** The dictionary literal with the entries of [stored] overridden by those
    of [kwargs]. *)
Definition merge_kwargs (stored kwargs : gmap string string)
  : gmap string string := kwargs ∪ stored.

(** ** [copy.deepcopy]

    [memo] maps every object already copied to its copy, so an object
    reached twice is copied once.  Strings are atomic: a dictionary of
    strings is copied entry by entry into a new dictionary. *)

Definition deepcopy_dict (memo : gmap loc loc) (x : loc) (h : heap)
  : result (loc * gmap loc loc * heap) :=
  match memo !! x with
  | Some y => Ok (y, memo, h)
  | None =>
      d ← load_dict h x;
      let '(y, h1) := alloc (DictObj d) h in
      Ok (y, <[x := y]> memo, h1)
  end.

Definition deepcopy_message (memo : gmap loc loc) (x : loc) (h : heap)
  : result (loc * gmap loc loc * heap) :=
  match memo !! x with
  | Some y => Ok (y, memo, h)
  | None =>
      m ← load_message h x;
      let '(y, h1) := alloc (ChatMessageObj m) h in
      Ok (y, <[x := y]> memo, h1)
  end.

(** The items of a list, copied in order. *)
Fixpoint deepcopy_items (memo : gmap loc loc) (xs : list loc) (h : heap)
  : result (list loc * gmap loc loc * heap) :=
  match xs with
  | [] => Ok ([], memo, h)
  | x :: xs' =>
      '(y, memo1, h1) ← deepcopy_message memo x h;
      '(ys, memo2, h2) ← deepcopy_items memo1 xs' h1;
      Ok (y :: ys, memo2, h2)
  end.

Definition deepcopy_list (memo : gmap loc loc) (x : loc) (h : heap)
  : result (loc * gmap loc loc * heap) :=
  match memo !! x with
  | Some y => Ok (y, memo, h)
  | None =>
      xs ← load_list h x;
      '(ys, memo1, h1) ← deepcopy_items memo xs h;
      let '(y, h2) := alloc (ListObj ys) h1 in
      Ok (y, <[x := y]> memo1, h2)
  end.

(** [deepcopy(self)] for a [PromptTemplate]: the attributes are copied in
    the order [__init__] set them, then the new instance is stored. *)
Definition deepcopy_PromptTemplate (self : loc) (h : heap)
  : result (loc * heap) :=
  p ← load_PromptTemplate h self;
  '(kw, memo1, h1) ← deepcopy_dict ∅ (pt_kwargs p) h;
  '(md, memo2, h2) ← deepcopy_dict memo1 (pt_metadata p) h1;
  Ok (alloc (PromptTemplateObj
               {| pt_template := pt_template p;
                  pt_kwargs := kw;
                  pt_metadata := md;
                  pt_output_parser := pt_output_parser p |}) h2).

(** [deepcopy(self)] for a [ChatPromptTemplate]. *)
Definition deepcopy_ChatPromptTemplate (self : loc) (h : heap)
  : result (loc * heap) :=
  p ← load_ChatPromptTemplate h self;
  '(ms, memo1, h1) ← deepcopy_list ∅ (cpt_message_templates p) h;
  '(kw, memo2, h2) ← deepcopy_dict memo1 (cpt_kwargs p) h1;
  '(md, memo3, h3) ← deepcopy_dict memo2 (cpt_metadata p) h2;
  Ok (alloc (ChatPromptTemplateObj
               {| cpt_message_templates := ms;
                  cpt_kwargs := kw;
                  cpt_metadata := md;
                  cpt_output_parser := cpt_output_parser p |}) h3).

(** ** [class PromptTemplate] *)

(** [PromptTemplate(template, prompt_type, output_parser, **kwargs)].  The
    keyword arguments arrive in a dictionary of their own, and the metadata
    dictionary is built by the constructor. *)
Definition PromptTemplate_init (template prompt_type : string)
    (output_parser : option OutputParser) (kwargs : gmap string string)
    (h : heap) : loc * heap :=
  let '(kw, h1) := alloc (DictObj kwargs) h in
  let '(md, h2) := alloc (DictObj {[ "prompt_type" := prompt_type ]}) h1 in
  alloc (PromptTemplateObj
           {| pt_template := template;
              pt_kwargs := kw;
              pt_metadata := md;
              pt_output_parser := output_parser |}) h2.

Definition PromptTemplate_template_vars (h : heap) (self : loc)
  : result (list string) :=
  p ← load_PromptTemplate h self;
  get_template_vars (pt_template p).

(** The [kwargs] attribute, read through to the dictionary it refers to. *)
Definition PromptTemplate_kwargs (h : heap) (self : loc)
  : result (gmap string string) :=
  p ← load_PromptTemplate h self;
  load_dict h (pt_kwargs p).

Definition PromptTemplate_partial_format (self : loc)
    (kwargs : gmap string string) (h : heap) : result (loc * heap) :=
  '(prompt, h1) ← deepcopy_PromptTemplate self h;
  p ← load_PromptTemplate h1 prompt;
  h2 ← dict_update h1 (pt_kwargs p) kwargs;
  Ok (prompt, h2).

Definition PromptTemplate_format (h : heap) (self : loc) (llm : option LLM)
    (kwargs : gmap string string) : result string :=
  _ ← DELETE_FAST "llm" (Some llm);
  p ← load_PromptTemplate h self;
  stored ← load_dict h (pt_kwargs p);
  let all_kwargs := merge_kwargs stored kwargs in
  str_format (pt_template p) all_kwargs.

(** ** [class ChatPromptTemplate] *)

(** [ChatPromptTemplate(message_templates, prompt_type, output_parser,
    **kwargs)]: the list of message templates is the caller's own list. *)
Definition ChatPromptTemplate_init (message_templates : loc)
    (prompt_type : string) (output_parser : option OutputParser)
    (kwargs : gmap string string) (h : heap) : loc * heap :=
  let '(kw, h1) := alloc (DictObj kwargs) h in
  let '(md, h2) := alloc (DictObj {[ "prompt_type" := prompt_type ]}) h1 in
  alloc (ChatPromptTemplateObj
           {| cpt_message_templates := message_templates;
              cpt_kwargs := kw;
              cpt_metadata := md;
              cpt_output_parser := output_parser |}) h2.

(** The loop of [template_vars]; [variables] is the list built so far. *)
Fixpoint template_vars_loop (h : heap) (message_templates : list loc)
    (variables : list string) : result (list string) :=
  match message_templates with
  | [] => Ok variables
  | message_template :: rest =>
      m ← load_message h message_template;
      vs ← get_template_vars (content_or_empty m);
      template_vars_loop h rest (variables ++ vs)
  end.

Definition ChatPromptTemplate_template_vars (h : heap) (self : loc)
  : result (list string) :=
  p ← load_ChatPromptTemplate h self;
  ms ← load_list h (cpt_message_templates p);
  template_vars_loop h ms [].

Definition ChatPromptTemplate_kwargs (h : heap) (self : loc)
  : result (gmap string string) :=
  p ← load_ChatPromptTemplate h self;
  load_dict h (cpt_kwargs p).

Definition ChatPromptTemplate_partial_format (self : loc)
    (kwargs : gmap string string) (h : heap) : result (loc * heap) :=
  '(prompt, h1) ← deepcopy_ChatPromptTemplate self h;
  p ← load_ChatPromptTemplate h1 prompt;
  h2 ← dict_update h1 (cpt_kwargs p) kwargs;
  Ok (prompt, h2).

(** [{k: v for k, v in all_kwargs.items() if k in template_vars}] *)
Definition relevant_kwargs (all_kwargs : gmap string string)
    (template_vars : list string) : gmap string string :=
  filter (fun kv => kv.1 ∈ template_vars) all_kwargs.

(** The body of the loop of [format_messages] for one message template: the
    new message is a copy of the template with the content replaced. *)
Definition format_message (all_kwargs : gmap string string)
    (message_template : ChatMessage) : result ChatMessage :=
  template_vars ← get_template_vars (content_or_empty message_template);
  let content_template := content_or_empty message_template in
  content ← str_format content_template
              (relevant_kwargs all_kwargs template_vars);
  let message := message_template in
  Ok (set_content message content).

(** The loop of [format_messages]; [messages] is the list built so far. *)
Fixpoint format_messages_loop (h : heap) (all_kwargs : gmap string string)
    (message_templates : list loc) (messages : list ChatMessage)
  : result (list ChatMessage) :=
  match message_templates with
  | [] => Ok messages
  | message_template :: rest =>
      m ← load_message h message_template;
      message ← format_message all_kwargs m;
      format_messages_loop h all_kwargs rest (messages ++ [message])
  end.

Definition ChatPromptTemplate_format_messages (h : heap) (self : loc)
    (llm : option LLM) (kwargs : gmap string string)
  : result (list ChatMessage) :=
  _ ← DELETE_FAST "llm" (Some llm);
  p ← load_ChatPromptTemplate h self;
  stored ← load_dict h (cpt_kwargs p);
  let all_kwargs := merge_kwargs stored kwargs in
  ms ← load_list h (cpt_message_templates p);
  format_messages_loop h all_kwargs ms [].

Definition ChatPromptTemplate_format (h : heap) (self : loc)
    (llm : option LLM) (kwargs : gmap string string) : result string :=
  _ ← DELETE_FAST "llm" (Some llm);
  messages ← ChatPromptTemplate_format_messages h self None kwargs;
  let prompt := messages_to_prompt messages in
  Ok prompt.

(** ** [class LangchainPromptTemplate] *)

(** Langchain's [ConditionalPromptSelector]: a default prompt and a list of
    (condition, prompt) pairs; [get_prompt] returns the prompt of the first
    condition that holds of the model, the default prompt otherwise. *)
Record LangchainSelector := {
  lcs_default_prompt : LangchainTemplate;
  lcs_conditionals : list ((option LLM -> bool) * LangchainTemplate)
}.

Fixpoint lcs_scan (cs : list ((option LLM -> bool) * LangchainTemplate))
    (llm : option LLM) (default : LangchainTemplate) : LangchainTemplate :=
  match cs with
  | [] => default
  | (condition, prompt) :: cs' =>
      if condition llm then prompt else lcs_scan cs' llm default
  end.

Definition LangchainSelector_get_prompt (sel : LangchainSelector)
    (llm : option LLM) : LangchainTemplate :=
  lcs_scan (lcs_conditionals sel) llm (lcs_default_prompt sel).

(** Instance attributes of [LangchainPromptTemplate]. *)
Record LangchainPromptTemplate := {
  lpt_selector : LangchainSelector;
  lpt_metadata : gmap string string;
  lpt_output_parser : option OutputParser
}.

(** [template.output_parser] where [template] may be [None]: attribute
    access on [None] raises [AttributeError]. *)
Definition getattr_output_parser (template : option LangchainTemplate)
  : result (option OutputParser) :=
  match template with
  | Some t => Ok (lc_output_parser t)
  | None => Raise AttributeError
  end.

Definition LangchainPromptTemplate_init (template : option LangchainTemplate)
    (selector : option LangchainSelector) (prompt_type : string)
  : result LangchainPromptTemplate :=
  _selector ←
    match selector with
    | None =>
        match template with
        | None => Raise ValueError
        | Some t =>
            Ok {| lcs_default_prompt := t; lcs_conditionals := [] |}
        end
    | Some sel =>
        match template with
        | Some _ => Raise ValueError
        | None => Ok sel
        end
    end;
  let metadata := {[ "prompt_type" := prompt_type ]} in
  output_parser ← getattr_output_parser template;
  Ok {| lpt_selector := _selector;
        lpt_metadata := metadata;
        lpt_output_parser := output_parser |}.

Definition LangchainPromptTemplate_partial_format
    (self : LangchainPromptTemplate) (kwargs : gmap string string)
  : result LangchainPromptTemplate :=
  let default_prompt :=
    lc_partial (lcs_default_prompt (lpt_selector self)) kwargs in
  let conditionals :=
    map (fun cp => (cp.1, lc_partial cp.2 kwargs))
        (lcs_conditionals (lpt_selector self)) in
  let lc_selector :=
    {| lcs_default_prompt := default_prompt;
       lcs_conditionals := conditionals |} in
  LangchainPromptTemplate_init None (Some lc_selector) PromptType_CUSTOM.

Definition LangchainPromptTemplate_format (self : LangchainPromptTemplate)
    (llm : option LLM) (kwargs : gmap string string) : result string :=
  llm_slot ← DELETE_FAST "llm" (Some llm);
  llm_arg ← LOAD_FAST "llm" llm_slot;
  let template := LangchainSelector_get_prompt (lpt_selector self) llm_arg in
  lc_format template kwargs.

Definition LangchainPromptTemplate_format_messages
    (self : LangchainPromptTemplate) (llm : option LLM)
    (kwargs : gmap string string) : result (list ChatMessage) :=
  llm_slot ← DELETE_FAST "llm" (Some llm);
  llm_arg ← LOAD_FAST "llm" llm_slot;
  let template := LangchainSelector_get_prompt (lpt_selector self) llm_arg in
  lc_format_messages template kwargs.

(** ** [class BasePromptTemplate] and [class SelectorPromptTemplate]

    The abstract base class has four concrete classes.  A prompt is a
    reference to a [PromptTemplate] or [ChatPromptTemplate] instance in the
    store, a selector over prompts, or a Langchain prompt.  Selector and
    Langchain instances are never updated in place by the module and are
    held by value. *)

#[local] Unset Elimination Schemes.
Inductive BasePromptTemplate :=
| PromptTemplateRef (self : loc)
| ChatPromptTemplateRef (self : loc)
| SelectorPromptTemplate (default_prompt : BasePromptTemplate)
    (conditionals : list ((LLM -> bool) * BasePromptTemplate))
| LangchainPromptTemplateVal (self : LangchainPromptTemplate).
#[local] Set Elimination Schemes.

(** [SelectorPromptTemplate(default_prompt, conditionals)], with
    [conditionals or []]. *)
Definition SelectorPromptTemplate_init (default_prompt : BasePromptTemplate)
    (conditionals : option (list ((LLM -> bool) * BasePromptTemplate)))
  : BasePromptTemplate :=
  SelectorPromptTemplate default_prompt
    (match conditionals with Some cs => cs | None => [] end).

(** The [for] loop of [_select]. *)
Fixpoint select_scan (conditionals : list ((LLM -> bool) * BasePromptTemplate))
    (llm : LLM) (default_prompt : BasePromptTemplate) : BasePromptTemplate :=
  match conditionals with
  | [] => default_prompt
  | (condition, prompt) :: rest =>
      if condition llm then prompt else select_scan rest llm default_prompt
  end.

Definition SelectorPromptTemplate__select
    (default_prompt : BasePromptTemplate)
    (conditionals : list ((LLM -> bool) * BasePromptTemplate))
    (llm : option LLM) : BasePromptTemplate :=
  match llm with
  | None => default_prompt
  | Some l => select_scan conditionals l default_prompt
  end.

(** [prompt.format], dispatched on the class of [prompt].  For a selector
    this is [format] of [self._select(llm=llm)], called with the keyword
    arguments only; the scan
    of [_select] is written out in place so that the recursion is
    structural ([SelectorPromptTemplate_format_select] below states the
    equation with [SelectorPromptTemplate__select]). *)
Fixpoint BasePromptTemplate_format (h : heap) (prompt : BasePromptTemplate)
    (llm : option LLM) (kwargs : gmap string string) : result string :=
  match prompt with
  | PromptTemplateRef self => PromptTemplate_format h self llm kwargs
  | ChatPromptTemplateRef self => ChatPromptTemplate_format h self llm kwargs
  | LangchainPromptTemplateVal self =>
      LangchainPromptTemplate_format self llm kwargs
  | SelectorPromptTemplate default_prompt conditionals =>
      match llm with
      | None => BasePromptTemplate_format h default_prompt None kwargs
      | Some l =>
          (fix scan (cs : list ((LLM -> bool) * BasePromptTemplate)) :=
             match cs with
             | [] => BasePromptTemplate_format h default_prompt None kwargs
             | (condition, p) :: rest =>
                 if condition l
                 then BasePromptTemplate_format h p None kwargs
                 else scan rest
             end) conditionals
      end
  end.

(** [prompt.partial_format], dispatched on the class of [prompt].
    A selector binds its default prompt, then each conditional prompt in
    list order, and builds a new selector from the results. *)
Fixpoint BasePromptTemplate_partial_format (prompt : BasePromptTemplate)
    (kwargs : gmap string string) (h : heap)
  : result (BasePromptTemplate * heap) :=
  match prompt with
  | PromptTemplateRef self =>
      '(p, h1) ← PromptTemplate_partial_format self kwargs h;
      Ok (PromptTemplateRef p, h1)
  | ChatPromptTemplateRef self =>
      '(p, h1) ← ChatPromptTemplate_partial_format self kwargs h;
      Ok (ChatPromptTemplateRef p, h1)
  | LangchainPromptTemplateVal self =>
      p ← LangchainPromptTemplate_partial_format self kwargs;
      Ok (LangchainPromptTemplateVal p, h)
  | SelectorPromptTemplate default_prompt conditionals =>
      '(default_prompt', h1) ←
        BasePromptTemplate_partial_format default_prompt kwargs h;
      '(conditionals', h2) ←
        (fix each (cs : list ((LLM -> bool) * BasePromptTemplate)) (h : heap)
           : result (list ((LLM -> bool) * BasePromptTemplate) * heap) :=
           match cs with
           | [] => Ok ([], h)
           | (condition, p) :: rest =>
               '(p', h1) ← BasePromptTemplate_partial_format p kwargs h;
               '(rest', h2) ← each rest h1;
               Ok ((condition, p') :: rest', h2)
           end) conditionals h1;
      Ok (SelectorPromptTemplate_init default_prompt' (Some conditionals'), h2)
  end.

(** ** Vocabulary of the statements *)

(** [vs] is the placeholder list of the message template at [l]. *)
Definition message_vars (h : heap) (l : loc) (vs : list string) : Prop :=
  exists m,
    load_message h l = Ok m /\
    get_template_vars (content_or_empty m) = Ok vs.

(** [out] is the message template at [l] rendered with the bindings
    [all_kwargs]: same role, and as content the template's content formatted
    with the bindings whose keys are placeholders of this very message. *)
Definition formatted_message (h : heap) (all_kwargs : gmap string string)
    (l : loc) (out : ChatMessage) : Prop :=
  exists m vars c,
    load_message h l = Ok m /\
    get_template_vars (content_or_empty m) = Ok vars /\
    str_format (content_or_empty m) (relevant_kwargs all_kwargs vars) = Ok c /\
    role out = role m /\
    content out = Some c.

(** [key] is a placeholder of no message template of the chat prompt. *)
Definition not_a_placeholder (h : heap) (self : loc) (key : string) : Prop :=
  forall p ms l vs,
    load_ChatPromptTemplate h self = Ok p ->
    load_list h (cpt_message_templates p) = Ok ms ->
    l ∈ ms ->
    message_vars h l vs ->
    key ∉ vs.

(** A replacement field is plain when it is a keyword name, as it is or
    with the conversion [!s]: an empty format spec, no attribute or index
    accessor, and a first part that is neither empty nor a number. *)
Definition is_plain_conversion (conv : option ascii) : bool :=
  match conv with
  | None => true
  | Some c => Ascii.eqb c "s"
  end.

Definition is_plain_field (f : field) : bool :=
  let '(first, rest) := field_name_split (field_name f) in
  match format_spec f, rest, first, get_integer first with
  | EmptyString, EmptyString, String _ _, Ok None =>
      is_plain_conversion (conversion f)
  | _, _, _, _ => false
  end.

Definition is_plain_chunk (c : chunk) : bool :=
  match c.2 with
  | Some f => is_plain_field f
  | None => true
  end.

(** A template string is plain when it is well formed and all its
    replacement fields are plain. *)
Definition is_plain_template (s : string) : bool :=
  match markup_chunks s with
  | (cs, None) => forallb is_plain_chunk cs
  | (_, Some _) => false
  end.

(** The text of a chunk list with every field replaced by the value bound to
    its name. *)
Fixpoint substitute (cs : list chunk) (kwargs : gmap string string) : string :=
  match cs with
  | [] => EmptyString
  | (lit, f) :: cs' =>
      lit +:+
      match f with
      | Some f => default EmptyString (kwargs !! field_name f)
      | None => EmptyString
      end +:+
      substitute cs' kwargs
  end.

Definition is_Ok {A} (r : result A) : bool :=
  match r with Ok _ => true | _ => false end.

(** Every reference of the instance resolves to an object of the class the
    methods expect. *)
Definition wf_PromptTemplate (h : heap) (self : loc) : bool :=
  match load_PromptTemplate h self with
  | Ok p =>
      is_Ok (load_dict h (pt_kwargs p)) && is_Ok (load_dict h (pt_metadata p))
  | _ => false
  end.

Definition wf_ChatPromptTemplate (h : heap) (self : loc) : bool :=
  match load_ChatPromptTemplate h self with
  | Ok p =>
      is_Ok (load_dict h (cpt_kwargs p)) &&
      is_Ok (load_dict h (cpt_metadata p)) &&
      match load_list h (cpt_message_templates p) with
      | Ok ms => forallb (fun l => is_Ok (load_message h l)) ms
      | _ => false
      end
  | _ => false
  end.

(** The objects an instance consists of: the instance and everything it
    refers to. *)
Definition PromptTemplate_objects (h : heap) (self : loc) : list loc :=
  match load_PromptTemplate h self with
  | Ok p => [self; pt_kwargs p; pt_metadata p]
  | _ => [self]
  end.

Definition ChatPromptTemplate_objects (h : heap) (self : loc) : list loc :=
  match load_ChatPromptTemplate h self with
  | Ok p =>
      [self; cpt_kwargs p; cpt_metadata p; cpt_message_templates p] ++
      match load_list h (cpt_message_templates p) with
      | Ok ms => ms
      | _ => []
      end
  | _ => [self]
  end.

(** The messages at [x] in [h] and at [y] in [h'] are equal. *)
Definition same_message (h h' : heap) (x y : loc) : Prop :=
  exists m, load_message h x = Ok m /\ load_message h' y = Ok m.

(** [l] did not exist in [h]: it was allocated later. *)
Definition fresh_for (h : heap) (l : loc) : Prop := length h <= l.

(** The invariant of a deep copy started in the store [h0], with the store
    now [h]: nothing that existed has changed, and the memo maps objects of
    [h0] to objects allocated since, a dictionary or a message to an equal
    one and a list to a list. *)
Definition copy_of (o o' : object) : Prop :=
  match o, o' with
  | DictObj d, DictObj d' => d = d'
  | ChatMessageObj m, ChatMessageObj m' => m = m'
  | ListObj _, ListObj _ => True
  | _, _ => False
  end.

Definition memo_ok (h0 : heap) (memo : gmap loc loc) (h : heap) : Prop :=
  h0 `prefix_of` h /\
  forall x y, memo !! x = Some y ->
    fresh_for h0 y /\
    exists o o', h0 !! x = Some o /\ h !! y = Some o' /\ copy_of o o'.

(** The conditional prompts of a selector, bound one after the other (the
    list comprehension of [SelectorPromptTemplate.partial_format]). *)
Fixpoint conditionals_partial_format
    (conditionals : list ((LLM -> bool) * BasePromptTemplate))
    (kwargs : gmap string string) (h : heap)
  : result (list ((LLM -> bool) * BasePromptTemplate) * heap) :=
  match conditionals with
  | [] => Ok ([], h)
  | (condition, p) :: rest =>
      '(p', h1) ← BasePromptTemplate_partial_format p kwargs h;
      '(rest', h2) ← conditionals_partial_format rest kwargs h1;
      Ok ((condition, p') :: rest', h2)
  end.

(** Every reference in a prompt resolves. *)
Fixpoint wf (h : heap) (prompt : BasePromptTemplate) : bool :=
  match prompt with
  | PromptTemplateRef self => wf_PromptTemplate h self
  | ChatPromptTemplateRef self => wf_ChatPromptTemplate h self
  | SelectorPromptTemplate default_prompt conditionals =>
      wf h default_prompt && forallb (fun cp => wf h cp.2) conditionals
  | LangchainPromptTemplateVal _ => true
  end.

(** Some prompt inside is a [LangchainPromptTemplate]. *)
Fixpoint has_langchain (prompt : BasePromptTemplate) : bool :=
  match prompt with
  | PromptTemplateRef _ | ChatPromptTemplateRef _ => false
  | SelectorPromptTemplate default_prompt conditionals =>
      has_langchain default_prompt ||
      existsb (fun cp => has_langchain cp.2) conditionals
  | LangchainPromptTemplateVal _ => true
  end.

(** [prompt], in the store [h'], is [self] of the store [h] partially bound
    with [kwargs]: it is made of objects that did not exist in [h], has the
    placeholders of [self], stores the bindings of [self] overridden by
    [kwargs], and renders as [self] does when [kwargs] are supplied at the
    call. *)
Definition PromptTemplate_bound_copy (kwargs : gmap string string)
    (h h' : heap) (self prompt : loc) : Prop :=
  Forall (fresh_for h) (PromptTemplate_objects h' prompt) /\
  PromptTemplate_template_vars h' prompt =
    PromptTemplate_template_vars h self /\
  PromptTemplate_kwargs h' prompt =
    (stored ← PromptTemplate_kwargs h self; Ok (kwargs ∪ stored)) /\
  (forall llm kw, PromptTemplate_format h' prompt llm kw =
                  PromptTemplate_format h self llm (kw ∪ kwargs)).

Definition ChatPromptTemplate_bound_copy (kwargs : gmap string string)
    (h h' : heap) (self prompt : loc) : Prop :=
  Forall (fresh_for h) (ChatPromptTemplate_objects h' prompt) /\
  ChatPromptTemplate_template_vars h' prompt =
    ChatPromptTemplate_template_vars h self /\
  ChatPromptTemplate_kwargs h' prompt =
    (stored ← ChatPromptTemplate_kwargs h self; Ok (kwargs ∪ stored)) /\
  (forall llm kw, ChatPromptTemplate_format_messages h' prompt llm kw =
                  ChatPromptTemplate_format_messages h self llm (kw ∪ kwargs)) /\
  (forall llm kw, ChatPromptTemplate_format h' prompt llm kw =
                  ChatPromptTemplate_format h self llm (kw ∪ kwargs)).

(** The same for any prompt: a selector is a bound copy of a selector when
    the default prompts are, and the conditionals are, pair by pair in list
    order, the same condition with a bound copy of the prompt. *)
Fixpoint bound_copy (kwargs : gmap string string) (h h' : heap)
    (t t' : BasePromptTemplate) {struct t} : Prop :=
  match t, t' with
  | PromptTemplateRef self, PromptTemplateRef prompt =>
      PromptTemplate_bound_copy kwargs h h' self prompt
  | ChatPromptTemplateRef self, ChatPromptTemplateRef prompt =>
      ChatPromptTemplate_bound_copy kwargs h h' self prompt
  | SelectorPromptTemplate d cs, SelectorPromptTemplate d' cs' =>
      bound_copy kwargs h h' d d' /\
      (fix each (cs cs' : list ((LLM -> bool) * BasePromptTemplate)) : Prop :=
         match cs, cs' with
         | [], [] => True
         | (c, p) :: rest, (c', p') :: rest' =>
             c = c' /\ bound_copy kwargs h h' p p' /\ each rest rest'
         | _, _ => False
         end) cs cs'
  | _, _ => False
  end.

End Definitions.

Abbreviation loc := nat (only parsing).
Abbreviation heap := (list object) (only parsing).

(** * Example objects *)

Section Examples.

(** Collaborators to evaluate the definitions with: a model is named by a
    string, the flattener writes one [role: content] entry per message and
    ends with the assistant's cue, and an external template is a format
    string. *)
Definition example_flatten (ms : list ChatMessage) : string :=
  foldr (fun m acc => role m +:+ ": " +:+ content_or_empty m +:+ "; " +:+ acc)
        "assistant: " ms.

Definition example_collaborators : Collaborators :=
  {| LLM := string;
     OutputParser := unit;
     messages_to_prompt := example_flatten;
     LangchainTemplate := string;
     lc_output_parser := fun _ => None;
     lc_partial := fun t _ => t;
     lc_format := str_format;
     lc_format_messages := fun t kw =>
       s ← str_format t kw; Ok [ {| role := "user"; content := Some s |} ];
     PromptType_CUSTOM := "custom" |}.

#[local] Existing Instance example_collaborators.

(** [PromptTemplate("{a}-{b}", a="1")] in an empty store. *)
Definition example_ab : loc * heap :=
  PromptTemplate_init "{a}-{b}" "custom" None {[ "a" := "1" ]} [].





(** The chat prompt of the spec's example: a system message
    ["You are {persona}"] and a user message ["{query}"]. *)
Definition example_chat : loc * heap :=
  let '(m1, h1) :=
    alloc (ChatMessageObj
             {| role := "system"; content := Some "You are {persona}" |}) [] in
  let '(m2, h2) :=
    alloc (ChatMessageObj
             {| role := "user"; content := Some "{query}" |}) h1 in
  let '(ms, h3) := alloc (ListObj [m1; m2]) h2 in
  ChatPromptTemplate_init ms "custom" None ∅ h3.

Definition example_chat_kwargs : gmap string string :=
  {[ "persona" := "helpful"; "query" := "2+2?" ]}.

(** A chat prompt whose two messages use the same placeholder. *)
Definition example_chat_twice : loc * heap :=
  let '(m1, h1) :=
    alloc (ChatMessageObj {| role := "system"; content := Some "{a}" |}) [] in
  let '(m2, h2) :=
    alloc (ChatMessageObj {| role := "user"; content := Some "{a}{b}" |}) h1 in
  let '(ms, h3) := alloc (ListObj [m1; m2]) h2 in
  ChatPromptTemplate_init ms "custom" None ∅ h3.

(** A selector over three [PromptTemplate]s: a default prompt and two
    conditionals; both conditions hold of the model ["gpt"], the second
    alone of ["claude"], none of any other model. *)
Definition example_selector : BasePromptTemplate * heap :=
  let '(d, h1) := PromptTemplate_init "default {a}" "custom" None ∅ [] in
  let '(p1, h2) := PromptTemplate_init "first {a}" "custom" None ∅ h1 in
  let '(p2, h3) := PromptTemplate_init "second {a}" "custom" None ∅ h2 in
  (SelectorPromptTemplate_init (PromptTemplateRef d)
     (Some [ (String.eqb "gpt", PromptTemplateRef p1);
             (fun l => String.eqb "gpt" l || String.eqb "claude" l,
              PromptTemplateRef p2) ]),
   h3).

End Examples.

(** * Further definitions: the rest of the module *)

(** ** Abstract members

    [BasePromptTemplate] derives from [ABC], so its metaclass records which
    members are abstract, and a class with an abstract member left cannot be
    instantiated.  A class body is the list of the names it binds, each with
    the mark [abstractmethod] puts on it. *)

Record binding := {
  bound_name : string;
  is_abstract : bool
}.

Definition concrete (name : string) : binding :=
  {| bound_name := name; is_abstract := false |}.

Definition abstract (name : string) : binding :=
  {| bound_name := name; is_abstract := true |}.

Definition binds (body : list binding) (name : string) : bool :=
  existsb (fun b => String.eqb (bound_name b) name) body.

(** [ABCMeta.__new__]: the abstract members of a class are the names its
    body binds to something abstract, and the abstract members of its base
    that the body does not bind again. *)
Definition compute_abstract_methods (inherited : list string)
    (body : list binding) : list string :=
  map bound_name (filter (fun b => is_abstract b = true) body) ++
  filter (fun name => binds body name = false) inherited.

(** The class bodies of the module, members in source order. *)
Definition BasePromptTemplate_body : list binding :=
  [ abstract "metadata"; abstract "template_vars"; abstract "kwargs";
    abstract "output_parser"; abstract "partial_format"; abstract "format";
    abstract "format_messages" ].

Definition ChatPromptTemplate_body : list binding :=
  [ concrete "__init__"; concrete "template_vars"; concrete "partial_format";
    concrete "format"; concrete "format_messages" ].

Definition PromptTemplate_body : list binding :=
  [ concrete "__init__"; concrete "template_vars"; concrete "partial_format";
    concrete "format"; concrete "format_messages" ].

Definition SelectorPromptTemplate_body : list binding :=
  [ concrete "__init__"; concrete "metadata"; concrete "kwargs";
    concrete "template_vars"; concrete "output_parser"; concrete "_select";
    concrete "partial_format"; concrete "format"; concrete "format_messages" ].

Definition LangchainPromptTemplate_body : list binding :=
  [ concrete "__init__"; concrete "template_vars"; concrete "partial_format";
    concrete "format"; concrete "format_messages" ].

(** The abstract members of a class that derives from [BasePromptTemplate]
    alone. *)
Definition abstract_methods_of (body : list binding) : list string :=
  compute_abstract_methods (compute_abstract_methods [] BasePromptTemplate_body)
    body.

(** [object.__new__]: calling a class with abstract members left raises
    [TypeError], before [__init__] runs. *)
Inductive instantiation :=
| InstanceCreated
| TypeError_abstract (members : list string).

Definition object_new (body : list binding) : instantiation :=
  match abstract_methods_of body with
  | [] => InstanceCreated
  | members => TypeError_abstract members
  end.

(** ** Keyword arguments

    [format] and [format_messages] take [self] and [llm] before their
    keyword dictionary: a keyword argument named [llm] is the model and one
    named [self] is refused, so neither name is a key of the dictionary
    these methods receive.  A dictionary with neither key can be given to
    them as keyword arguments. *)
Definition format_keywords (kwargs : gmap string string) : Prop :=
  kwargs !! "self" = None /\ kwargs !! "llm" = None.

Section MoreDefinitions.
Context `{Collaborators}.

(** [llama_index.llms.generic_utils.prompt_to_messages], which the module
    imports and only calls: a parameter. *)
Variable prompt_to_messages : string -> list ChatMessage.

(** ** [PromptTemplate.format_messages] *)
Definition PromptTemplate_format_messages (h : heap) (self : loc)
    (llm : option LLM) (kwargs : gmap string string)
  : result (list ChatMessage) :=
  _ ← DELETE_FAST "llm" (Some llm);
  prompt ← PromptTemplate_format h self None kwargs;
  Ok (prompt_to_messages prompt).

(** ** [SelectorPromptTemplate.format_messages]

    [prompt.format_messages], dispatched on the class of [prompt]; for a
    selector, [format_messages] of [self._select(llm=llm)] with the keyword
    arguments only, the scan written out in place as for [format]. *)
Fixpoint BasePromptTemplate_format_messages (h : heap)
    (prompt : BasePromptTemplate) (llm : option LLM)
    (kwargs : gmap string string) : result (list ChatMessage) :=
  match prompt with
  | PromptTemplateRef self => PromptTemplate_format_messages h self llm kwargs
  | ChatPromptTemplateRef self =>
      ChatPromptTemplate_format_messages h self llm kwargs
  | LangchainPromptTemplateVal self =>
      LangchainPromptTemplate_format_messages self llm kwargs
  | SelectorPromptTemplate default_prompt conditionals =>
      match llm with
      | None => BasePromptTemplate_format_messages h default_prompt None kwargs
      | Some l =>
          (fix scan (cs : list ((LLM -> bool) * BasePromptTemplate)) :=
             match cs with
             | [] =>
                 BasePromptTemplate_format_messages h default_prompt None
                   kwargs
             | (condition, p) :: rest =>
                 if condition l
                 then BasePromptTemplate_format_messages h p None kwargs
                 else scan rest
             end) conditionals
      end
  end.

(** ** The accessors [template_vars] and [kwargs] of a prompt

    On a selector both are those of the default prompt.  On a Langchain
    prompt they are not modelled: [template_vars] hands the external
    template object, not a string, to [get_template_vars], and the class
    never sets [kwargs]. *)
Fixpoint BasePromptTemplate_template_vars (h : heap)
    (prompt : BasePromptTemplate) : result (list string) :=
  match prompt with
  | PromptTemplateRef self => PromptTemplate_template_vars h self
  | ChatPromptTemplateRef self => ChatPromptTemplate_template_vars h self
  | SelectorPromptTemplate default_prompt _ =>
      BasePromptTemplate_template_vars h default_prompt
  | LangchainPromptTemplateVal _ => Undefined
  end.

Fixpoint BasePromptTemplate_kwargs (h : heap) (prompt : BasePromptTemplate)
  : result (gmap string string) :=
  match prompt with
  | PromptTemplateRef self => PromptTemplate_kwargs h self
  | ChatPromptTemplateRef self => ChatPromptTemplate_kwargs h self
  | SelectorPromptTemplate default_prompt _ =>
      BasePromptTemplate_kwargs h default_prompt
  | LangchainPromptTemplateVal _ => Undefined
  end.

(** ** Vocabulary *)

(** The message template at [l] exists and its content is a plain template
    string. *)
Definition plain_message (h : heap) (l : loc) : Prop :=
  exists m,
    load_message h l = Ok m /\
    is_plain_template (content_or_empty m) = true.

(** Partial binding with [k1], then with [k2], then [format]. *)
Definition bind_twice_then_format (h : heap) (t : BasePromptTemplate)
    (k1 k2 : gmap string string) (llm : option LLM)
    (kw : gmap string string) : result string :=
  '(t1, h1) ← BasePromptTemplate_partial_format t k1 h;
  '(t2, h2) ← BasePromptTemplate_partial_format t1 k2 h1;
  BasePromptTemplate_format h2 t2 llm kw.

(** Partial binding with [k], then [format]. *)
Definition bind_then_format (h : heap) (t : BasePromptTemplate)
    (k : gmap string string) (llm : option LLM) (kw : gmap string string)
  : result string :=
  '(t1, h1) ← BasePromptTemplate_partial_format t k h;
  BasePromptTemplate_format h1 t1 llm kw.

(** [out] is the message template at [l] with every replacement field of
    its content replaced by the value [all_kwargs] binds to its name: same
    role, substituted content. *)
Definition substituted_message (h : heap) (all_kwargs : gmap string string)
    (l : loc) (out : ChatMessage) : Prop :=
  exists m cs,
    load_message h l = Ok m /\
    markup_chunks (content_or_empty m) = (cs, None) /\
    out = set_content m (substitute cs all_kwargs).

End MoreDefinitions.

Section MoreExamples.

#[local] Existing Instance example_collaborators.

(** A converter to evaluate with: one user message. *)
Definition example_prompt_to_messages (prompt : string) : list ChatMessage :=
  [ {| role := "user"; content := Some prompt |} ].

(** A selector whose first conditional prompt is itself a selector: the
    inner selector has a condition that holds of every model. *)
Definition example_nested_selector : BasePromptTemplate * heap :=
  let '(d, h1) := PromptTemplate_init "outer default" "custom" None ∅ [] in
  let '(d2, h2) := PromptTemplate_init "inner default" "custom" None ∅ h1 in
  let '(p2, h3) := PromptTemplate_init "inner special" "custom" None ∅ h2 in
  (SelectorPromptTemplate (PromptTemplateRef d)
     [ (String.eqb "gpt",
        SelectorPromptTemplate (PromptTemplateRef d2)
          [ (fun _ => true, PromptTemplateRef p2) ]) ],
   h3).

End MoreExamples.

(** * Properties *)

Section Theorems.
Context `{Collaborators}.

(** ** The monad of results *)

Lemma bind_Ok {A B} (m : result A) (f : A -> result B) (b : B) :
  (m ≫= f) = Ok b <-> exists a, m = Ok a /\ f a = Ok b.
Proof.
  destruct m; simpl; split; intros; try discriminate; eauto.
  - destruct H0 as (x & Hx & Hf). by inversion Hx; subst.
  - destruct H0 as (x & Hx & _). discriminate.
  - destruct H0 as (x & Hx & _). discriminate.
Qed.

(** ** The scanner terminates within its fuel *)

Lemma scan_literal_length s lit r :
  scan_literal s = (lit, r) ->
  String.length s = String.length lit + String.length r.
Proof.
  revert lit r. induction s as [|c s IH]; intros lit r; simpl.
  - intros [= <- <-]. done.
  - destruct (is_brace c).
    + intros [= <- <-]. done.
    + destruct (scan_literal s) as [l' r'] eqn:E. intros [= <- <-].
      simpl. by rewrite (IH l' r' eq_refl).
Qed.

Lemma scan_field_name_length b s n t r :
  scan_field_name b s = Ok (n, t, r) -> String.length r < String.length s.
Proof.
  revert b n t r. induction s as [|c s IH]; intros b n t r; simpl; [done|].
  destruct b.
  - destruct (scan_field_name _ s) as [[[n' t'] r']| |] eqn:E; simpl; try done.
    intros [= <- <- <-]. apply IH in E. lia.
  - destruct (Ascii.eqb c "{"); [done|].
    destruct (Ascii.eqb c "[").
    { destruct (scan_field_name true s) as [[[n' t'] r']| |] eqn:E; simpl;
        try done.
      intros [= <- <- <-]. apply IH in E. lia. }
    destruct (_ || _)%bool.
    { intros [= <- <- <-]. lia. }
    destruct (scan_field_name false s) as [[[n' t'] r']| |] eqn:E; simpl;
      try done.
    intros [= <- <- <-]. apply IH in E. lia.
Qed.

Lemma scan_format_spec_length d s sp r :
  scan_format_spec d s = Ok (sp, r) -> String.length r < String.length s.
Proof.
  revert d sp r. induction s as [|c s IH]; intros d sp r; simpl; [done|].
  destruct (Ascii.eqb c "{").
  { destruct (scan_format_spec (S d) s) as [[sp' r']| |] eqn:E; simpl; try done.
    intros [= <- <-]. apply IH in E. lia. }
  destruct (Ascii.eqb c "}").
  { destruct d as [|d].
    - intros [= <- <-]. lia.
    - destruct (scan_format_spec d s) as [[sp' r']| |] eqn:E; simpl; try done.
      intros [= <- <-]. apply IH in E. lia. }
  destruct (scan_format_spec d s) as [[sp' r']| |] eqn:E; simpl; try done.
  intros [= <- <-]. apply IH in E. lia.
Qed.

Lemma drop_continuation_length s :
  String.length (drop_continuation s) <= String.length s.
Proof.
  induction s as [|c s IH]; simpl; [done|].
  destruct (is_continuation c); simpl; lia.
Qed.

Lemma parse_field_length s f r :
  parse_field s = Ok (f, r) -> String.length r < String.length s.
Proof.
  unfold parse_field.
  destruct (scan_field_name false s) as [[[n t] r0]| |] eqn:E; simpl; try done.
  apply scan_field_name_length in E.
  destruct (Ascii.eqb t "}").
  { intros [= <- <-]. done. }
  destruct (Ascii.eqb t "!").
  - destruct r0 as [|conv r1]; [done|].
    pose proof (drop_continuation_length r1) as Hdrop.
    destruct (drop_continuation r1) as [|c2 r2]; [done|].
    destruct (Ascii.eqb c2 "}").
    { intros [= <- <-]. simpl in E, Hdrop. lia. }
    destruct (Ascii.eqb c2 ":"); [|done].
    destruct (scan_format_spec 0 r2) as [[sp r3]| |] eqn:E2; simpl; try done.
    intros [= <- <-]. apply scan_format_spec_length in E2.
    simpl in E, Hdrop. lia.
  - destruct (scan_format_spec 0 r0) as [[sp r3]| |] eqn:E2; simpl; try done.
    intros [= <- <-]. apply scan_format_spec_length in E2. lia.
Qed.

Lemma MarkupIterator_next_length s c rest :
  MarkupIterator_next s = MChunk c rest ->
  String.length rest < String.length s.
Proof.
  unfold MarkupIterator_next. destruct s as [|c0 s0]; [done|].
  destruct (scan_literal (String c0 s0)) as [lit r] eqn:E.
  apply scan_literal_length in E. rewrite E.
  destruct r as [|b [|b' r'']].
  - intros [= <- <-]. simpl in *. lia.
  - done.
  - destruct (Ascii.eqb b' b).
    { intros [= <- <-]. simpl. lia. }
    destruct (Ascii.eqb b "}"); [done|].
    destruct (parse_field (String b' r'')) as [[f rest']| |] eqn:E2; try done.
    intros [= <- <-]. apply parse_field_length in E2. simpl in *. lia.
Qed.

(** More fuel than the length of the string changes nothing: the scan of
    [markup_chunks] is complete. *)
Lemma markup_iter_fuel n s :
  String.length s <= n -> markup_iter n s = markup_chunks s.
Proof.
  unfold markup_chunks.
  remember (String.length s) as k eqn:Hk.
  revert n s Hk. induction k as [k IH] using lt_wf_ind. intros n s -> Hn.
  destruct s as [|c0 s0].
  { destruct n; reflexivity. }
  destruct n as [|n]; [simpl in Hn; lia|].
  cbn [String.length markup_iter].
  destruct (MarkupIterator_next (String c0 s0)) as [|c rest|e] eqn:E; try done.
  apply MarkupIterator_next_length in E. cbn [String.length] in *.
  rewrite (IH (String.length rest) ltac:(lia) n rest eq_refl ltac:(lia)).
  rewrite (IH (String.length rest) ltac:(lia) (String.length s0) rest eq_refl
             ltac:(lia)).
  done.
Qed.

(** ** [ChatPromptTemplate.template_vars] *)

Lemma template_vars_loop_Ok h ms acc vs :
  template_vars_loop h ms acc = Ok vs <->
  exists vss, Forall2 (message_vars h) ms vss /\ vs = acc ++ concat vss.
Proof.
  revert acc. induction ms as [|l ms IH]; intros acc; simpl.
  - split.
    + intros [= <-]. exists []. split; [constructor|]. by rewrite app_nil_r.
    + intros (vss & HF & ->). inversion HF; subst. simpl.
      by rewrite app_nil_r.
  - rewrite bind_Ok. split.
    + intros (m & Hm & Hrest). apply bind_Ok in Hrest as (v & Hv & Hrest).
      apply IH in Hrest as (vss & HF & ->).
      exists (v :: vss). split.
      * constructor; [|done]. by exists m.
      * simpl. by rewrite app_assoc.
    + intros (vss & HF & ->). inversion HF as [|? v ? vss' Hl HF']; subst.
      destruct Hl as (m & Hm & Hv). exists m. split; [done|].
      apply bind_Ok. exists v. split; [done|].
      apply IH. exists vss'. split; [done|]. simpl. by rewrite app_assoc.
Qed.

(** C10: [template_vars] of a chat prompt returns exactly the concatenation,
    in message order, of the placeholder lists the extractor gives for each
    message template; nothing is removed, so a name used by two messages
    occurs twice. *)
Theorem ChatPromptTemplate_template_vars_concat h self vs :
  ChatPromptTemplate_template_vars h self = Ok vs <->
  exists p ms vss,
    load_ChatPromptTemplate h self = Ok p /\
    load_list h (cpt_message_templates p) = Ok ms /\
    Forall2 (message_vars h) ms vss /\
    vs = concat vss.
Proof.
  unfold ChatPromptTemplate_template_vars. rewrite bind_Ok. split.
  - intros (p & Hp & Hrest). apply bind_Ok in Hrest as (ms & Hms & Hloop).
    apply template_vars_loop_Ok in Hloop as (vss & HF & ->).
    by exists p, ms, vss.
  - intros (p & ms & vss & Hp & Hms & HF & ->).
    exists p. split; [done|]. apply bind_Ok. exists ms. split; [done|].
    apply template_vars_loop_Ok. by exists vss.
Qed.

(** ** [ChatPromptTemplate.format_messages] *)

Lemma format_message_Ok kw m out :
  format_message kw m = Ok out <->
  exists vars c,
    get_template_vars (content_or_empty m) = Ok vars /\
    str_format (content_or_empty m) (relevant_kwargs kw vars) = Ok c /\
    out = set_content m c.
Proof.
  unfold format_message. rewrite bind_Ok. split.
  - intros (vars & Hv & Hrest). apply bind_Ok in Hrest as (c & Hc & [= <-]).
    by exists vars, c.
  - intros (vars & c & Hv & Hc & ->). exists vars. split; [done|].
    apply bind_Ok. by exists c.
Qed.

Lemma format_messages_loop_Ok h kw ms acc out :
  format_messages_loop h kw ms acc = Ok out <->
  exists new, Forall2 (formatted_message h kw) ms new /\ out = acc ++ new.
Proof.
  revert acc. induction ms as [|l ms IH]; intros acc; simpl.
  - split.
    + intros [= <-]. exists []. split; [constructor|]. by rewrite app_nil_r.
    + intros (new & HF & ->). inversion HF; subst. by rewrite app_nil_r.
  - rewrite bind_Ok. split.
    + intros (m & Hm & Hrest). apply bind_Ok in Hrest as (msg & Hmsg & Hrest).
      apply format_message_Ok in Hmsg as (vars & c & Hv & Hc & ->).
      apply IH in Hrest as (new & HF & ->).
      exists (set_content m c :: new). split.
      * constructor; [|done]. by exists m, vars, c.
      * by rewrite <- app_assoc.
    + intros (new & HF & ->). inversion HF as [|? o ? new' Hl HF']; subst.
      destruct Hl as (m & vars & c & Hm & Hv & Hc & Hr & Hcont).
      exists m. split; [done|]. apply bind_Ok. exists o. split.
      * apply format_message_Ok. exists vars, c. repeat split; try done.
        destruct o as [r co]. simpl in *. by subst.
      * apply IH. exists new'. split; [done|]. by rewrite <- app_assoc.
Qed.

(** A binding whose key is not among [vars] does not pass the filter. *)
Lemma relevant_kwargs_insert_irrelevant (kw : gmap string string) vars k x :
  k ∉ vars -> relevant_kwargs (<[k := x]> kw) vars = relevant_kwargs kw vars.
Proof.
  intros Hk. unfold relevant_kwargs. apply map_eq. intros i.
  destruct (decide (i = k)) as [->|Hne].
  - transitivity (@None string).
    + apply map_lookup_filter_None. right. intros v _ Hin. by apply Hk.
    + symmetry. apply map_lookup_filter_None. right. intros v _ Hin.
      by apply Hk.
  - destruct (filter _ kw !! i) as [v|] eqn:E.
    + apply map_lookup_filter_Some in E as [E Hin].
      apply map_lookup_filter_Some. split; [|done].
      by rewrite lookup_insert_ne.
    + apply map_lookup_filter_None. apply map_lookup_filter_None in E.
      rewrite lookup_insert_ne by done. done.
Qed.

Lemma merge_kwargs_insert (stored kwargs : gmap string string) k x :
  merge_kwargs stored (<[k := x]> kwargs) = <[k := x]> (merge_kwargs stored kwargs).
Proof. unfold merge_kwargs. by rewrite insert_union_l. Qed.

Lemma format_messages_loop_insert_irrelevant h kw ms acc k x :
  (forall l vs, l ∈ ms -> message_vars h l vs -> k ∉ vs) ->
  format_messages_loop h (<[k := x]> kw) ms acc =
  format_messages_loop h kw ms acc.
Proof.
  revert acc. induction ms as [|l ms IH]; intros acc Hk; simpl; [done|].
  destruct (load_message h l) as [m| |] eqn:Hm; simpl; try done.
  assert (format_message (<[k := x]> kw) m = format_message kw m) as ->.
  { unfold format_message.
    destruct (get_template_vars (content_or_empty m)) as [vars| |] eqn:Hv;
      simpl; try done.
    rewrite relevant_kwargs_insert_irrelevant; [done|].
    apply (Hk l); [by left|]. by exists m. }
  destruct (format_message kw m) as [msg| |]; simpl; try done.
  apply IH. intros l' vs Hin. apply Hk. by right.
Qed.

(** C1: [format_messages] returns a list exactly when every message template
    renders, and then the list is one-to-one with the message templates, in
    their order, each message with the role of its template and with the
    template's content formatted under the merged bindings (stored ones
    overridden by the call's) restricted to that message's own placeholders.
    A further binding whose key is a placeholder of no message changes
    nothing: the same messages, or the same error, result. *)
Theorem ChatPromptTemplate_format_messages_per_message h self llm kwargs :
  (forall msgs,
     ChatPromptTemplate_format_messages h self llm kwargs = Ok msgs <->
     exists p stored ms,
       load_ChatPromptTemplate h self = Ok p /\
       load_dict h (cpt_kwargs p) = Ok stored /\
       load_list h (cpt_message_templates p) = Ok ms /\
       Forall2 (formatted_message h (merge_kwargs stored kwargs)) ms msgs) /\
  (forall extra x,
     not_a_placeholder h self extra ->
     ChatPromptTemplate_format_messages h self llm (<[extra := x]> kwargs) =
     ChatPromptTemplate_format_messages h self llm kwargs).
Proof.
  split.
  - intros msgs. unfold ChatPromptTemplate_format_messages. simpl.
    rewrite bind_Ok. split.
    + intros (p & Hp & Hrest). apply bind_Ok in Hrest as (stored & Hs & Hrest).
      apply bind_Ok in Hrest as (ms & Hms & Hloop).
      apply format_messages_loop_Ok in Hloop as (new & HF & ->).
      by exists p, stored, ms.
    + intros (p & stored & ms & Hp & Hs & Hms & HF).
      exists p. split; [done|]. apply bind_Ok. exists stored. split; [done|].
      apply bind_Ok. exists ms. split; [done|].
      apply format_messages_loop_Ok. by exists msgs.
  - intros extra x Hextra. unfold ChatPromptTemplate_format_messages. simpl.
    destruct (load_ChatPromptTemplate h self) as [p| |] eqn:Hp; simpl; try done.
    destruct (load_dict h (cpt_kwargs p)) as [stored| |]; simpl; try done.
    destruct (load_list h (cpt_message_templates p)) as [ms| |] eqn:Hms;
      simpl; try done.
    rewrite merge_kwargs_insert.
    apply format_messages_loop_insert_irrelevant.
    intros l vs Hin Hvs. by apply (Hextra p ms l vs).
Qed.

(** ** [ChatPromptTemplate.format] *)

Lemma ChatPromptTemplate_format_messages_llm h self llm llm' kwargs :
  ChatPromptTemplate_format_messages h self llm kwargs =
  ChatPromptTemplate_format_messages h self llm' kwargs.
Proof. reflexivity. Qed.

(** C7: whenever [format_messages] succeeds on a chat prompt, [format] with
    the same bindings returns the messages-to-prompt flattener applied to
    that very list of messages. *)
Theorem ChatPromptTemplate_format_flattens h self llm kwargs msgs :
  ChatPromptTemplate_format_messages h self llm kwargs = Ok msgs ->
  ChatPromptTemplate_format h self llm kwargs = Ok (messages_to_prompt msgs).
Proof.
  intros Hm. unfold ChatPromptTemplate_format. simpl.
  rewrite (ChatPromptTemplate_format_messages_llm h self None llm).
  by rewrite Hm.
Qed.

(** ** [PromptTemplate.format] on plain templates *)

Lemma append_cons c (s t : string) : String c s +:+ t = String c (s +:+ t).
Proof. reflexivity. Qed.

Lemma field_name_split_app s first rest :
  field_name_split s = (first, rest) -> s = first +:+ rest.
Proof.
  revert first rest. induction s as [|c s IH]; intros first rest; simpl.
  - by intros [= <- <-].
  - destruct (_ || _)%bool.
    + by intros [= <- <-].
    + destruct (field_name_split s) as [f r]. intros [= <- <-].
      rewrite append_cons. by rewrite <- (IH f r eq_refl).
Qed.

Lemma string_app_empty_r (s : string) : s +:+ "" = s.
Proof.
  induction s as [|c s IH]; [done|]. rewrite append_cons. by rewrite IH.
Qed.

Lemma output_markup_plain f (kw : gmap string string) :
  is_plain_field f = true ->
  field_name f <> "" /\
  output_markup f kw =
    match kw !! field_name f with
    | Some v => Ok v
    | None => Raise (KeyError (field_name f))
    end.
Proof.
  unfold is_plain_field, output_markup, get_field_object.
  destruct (field_name_split (field_name f)) as [first rest] eqn:E.
  apply field_name_split_app in E.
  destruct (format_spec f); [|done].
  destruct rest; [|done].
  rewrite string_app_empty_r in E. subst first.
  destruct (field_name f) as [|c n]; [done|].
  destruct (get_integer (String c n)) as [[i|]| |]; try done.
  intros Hconv. split; [done|]. simpl.
  destruct (kw !! String c n) as [v|]; [|done]. simpl.
  assert (do_conversion (conversion f) v = Ok v) as ->; [|done].
  unfold do_conversion.
  destruct (conversion f) as [conv|]; [|done].
  simpl in Hconv. by rewrite Hconv.
Qed.

Lemma chunk_vars_cons_plain lit f cs :
  is_plain_field f = true ->
  chunk_vars ((lit, Some f) :: cs) = field_name f :: chunk_vars cs.
Proof.
  intros Hf. destruct (output_markup_plain f ∅ Hf) as [Hne _].
  simpl. by destruct (field_name f).
Qed.

(** On plain chunks, rendering substitutes when every name is bound and
    raises [KeyError] for the first unbound name otherwise. *)
Lemma build_string_plain cs (kw : gmap string string) :
  forallb is_plain_chunk cs = true ->
  (Forall (fun v => is_Some (kw !! v)) (chunk_vars cs) /\
   build_string cs None kw = Ok (substitute cs kw)) \/
  (exists v, v ∈ chunk_vars cs /\ kw !! v = None /\
             build_string cs None kw = Raise (KeyError v)).
Proof.
  induction cs as [|[lit [f|]] cs IH]; intros Hp.
  - left. split; [constructor|done].
  - simpl in Hp. apply andb_prop in Hp as [Hf Hcs].
    unfold is_plain_chunk in Hf. simpl in Hf.
    rewrite chunk_vars_cons_plain by done.
    destruct (output_markup_plain f kw Hf) as [_ Ho].
    cbn [build_string substitute]. rewrite Ho.
    destruct (kw !! field_name f) as [v|] eqn:Hv.
    + destruct (IH Hcs) as [[Hall Hb]|(w & Hin & Hw & Hb)].
      * left. split; [constructor; [by rewrite Hv|done]|].
        simpl. by rewrite Hb.
      * right. exists w. split; [by right|]. split; [done|].
        simpl. by rewrite Hb.
    + right. exists (field_name f). split; [by left|]. by split.
  - simpl in Hp. destruct (IH Hp) as [[Hall Hb]|(w & Hin & Hw & Hb)].
    + left. split; [done|]. cbn [build_string substitute]. simpl.
      by rewrite Hb.
    + right. exists w. split; [done|]. split; [done|].
      cbn [build_string]. simpl. by rewrite Hb.
Qed.


(** What a plain template string renders to. *)
Lemma str_format_plain s (kw : gmap string string) :
  is_plain_template s = true ->
  exists cs,
    markup_chunks s = (cs, None) /\
    get_template_vars s = Ok (chunk_vars cs) /\
    forallb is_plain_chunk cs = true /\
    str_format s kw = build_string cs None kw.
Proof.
  unfold is_plain_template, get_template_vars, formatter_parse, str_format.
  destruct (markup_chunks s) as [cs [e|]]; [done|].
  intros Hp. by exists cs.
Qed.


(** ** [LangchainPromptTemplate] *)

(** C3: what the constructor does for each combination of its two optional
    arguments.  Both or neither: [ValueError].  Template only: an instance
    over a selector with that default prompt.  Selector only: the selector
    is accepted, and then reading [template.output_parser] on the absent
    template raises [AttributeError], so no instance is returned. *)
Theorem LangchainPromptTemplate_init_cases template selector prompt_type :
  LangchainPromptTemplate_init template selector prompt_type =
  match template, selector with
  | Some t, None =>
      Ok {| lpt_selector :=
              {| lcs_default_prompt := t; lcs_conditionals := [] |};
            lpt_metadata := {[ "prompt_type" := prompt_type ]};
            lpt_output_parser := lc_output_parser t |}
  | None, Some _ => Raise AttributeError
  | Some _, Some _ => Raise ValueError
  | None, None => Raise ValueError
  end.
Proof. by destruct template, selector. Qed.

Lemma LangchainPromptTemplate_partial_format_raises self kwargs :
  LangchainPromptTemplate_partial_format self kwargs = Raise AttributeError.
Proof. reflexivity. Qed.

(** C4: on every instance the constructor returns, [format] and
    [format_messages] raise [UnboundLocalError] for [llm], whatever the
    arguments: the parameter is deleted and then read. *)
Theorem LangchainPromptTemplate_format_unbound
    template selector prompt_type self llm kwargs :
  LangchainPromptTemplate_init template selector prompt_type = Ok self ->
  LangchainPromptTemplate_format self llm kwargs =
    Raise (UnboundLocalError "llm") /\
  LangchainPromptTemplate_format_messages self llm kwargs =
    Raise (UnboundLocalError "llm").
Proof. intros _. split; reflexivity. Qed.

(** ** [SelectorPromptTemplate._select] and [format] *)

Lemma select_scan_first_match conditionals llm default_prompt
    pre condition prompt post :
  conditionals = pre ++ (condition, prompt) :: post ->
  Forall (fun cp => cp.1 llm = false) pre ->
  condition llm = true ->
  select_scan conditionals llm default_prompt = prompt.
Proof.
  intros -> Hpre Hc. induction Hpre as [|[c p] pre Hcp _ IH]; simpl.
  - by rewrite Hc.
  - simpl in Hcp. by rewrite Hcp.
Qed.

Lemma select_scan_no_match conditionals llm default_prompt :
  Forall (fun cp => cp.1 llm = false) conditionals ->
  select_scan conditionals llm default_prompt = default_prompt.
Proof.
  induction 1 as [|[c p] cs Hcp _ IH]; simpl; [done|].
  simpl in Hcp. by rewrite Hcp.
Qed.

(** Every scan ends in one of the two ways. *)
Lemma select_scan_cases (conditionals : list ((LLM -> bool) * BasePromptTemplate))
    llm :
  (exists pre condition prompt post,
     conditionals = pre ++ (condition, prompt) :: post /\
     Forall (fun cp => cp.1 llm = false) pre /\
     condition llm = true) \/
  Forall (fun cp => cp.1 llm = false) conditionals.
Proof.
  induction conditionals as [|[c p] cs IH]; [by right|].
  destruct (c llm) eqn:Hc.
  - left. exists [], c, p, cs. by repeat split.
  - destruct IH as [(pre & c' & p' & post & -> & Hpre & Hc')|Hall].
    + left. exists ((c, p) :: pre), c', p', post. repeat split; try done.
      by constructor.
    + right. by constructor.
Qed.

(** The equation of [SelectorPromptTemplate.format]:
    [prompt = self._select(llm=llm)], then [format] of [prompt] with the
    keyword arguments only. *)
Lemma SelectorPromptTemplate_format_select h default_prompt conditionals
    llm kwargs :
  BasePromptTemplate_format h
    (SelectorPromptTemplate default_prompt conditionals) llm kwargs =
  BasePromptTemplate_format h
    (SelectorPromptTemplate__select default_prompt conditionals llm)
    None kwargs.
Proof.
  destruct llm as [l|]; [|done]. simpl.
  induction conditionals as [|[c p] cs IH]; [done|].
  simpl. by destruct (c l).
Qed.

(** C6: selection is a first-match-wins scan.  Without a model the default
    prompt is selected; with a model, the prompt of the first condition, in
    list order, that holds of it; when no condition holds, the default
    prompt, and then [format] on the selector is [format] on the default
    prompt with the same keyword arguments (for a default prompt that is a
    [PromptTemplate] or a [ChatPromptTemplate], whichever model [format] is
    given).  One of the last two cases always applies. *)
Theorem SelectorPromptTemplate_select_first_match default_prompt conditionals :
  SelectorPromptTemplate__select default_prompt conditionals None =
    default_prompt /\
  (forall llm pre condition prompt post,
     conditionals = pre ++ (condition, prompt) :: post ->
     Forall (fun cp => cp.1 llm = false) pre ->
     condition llm = true ->
     SelectorPromptTemplate__select default_prompt conditionals (Some llm) =
       prompt) /\
  (forall llm,
     Forall (fun cp => cp.1 llm = false) conditionals ->
     SelectorPromptTemplate__select default_prompt conditionals (Some llm) =
       default_prompt /\
     forall h kwargs,
       BasePromptTemplate_format h
         (SelectorPromptTemplate default_prompt conditionals) (Some llm)
         kwargs =
       BasePromptTemplate_format h default_prompt None kwargs /\
       match default_prompt with
       | PromptTemplateRef _ | ChatPromptTemplateRef _ =>
           forall llm',
             BasePromptTemplate_format h
               (SelectorPromptTemplate default_prompt conditionals)
               (Some llm) kwargs =
             BasePromptTemplate_format h default_prompt llm' kwargs
       | _ => True
       end) /\
  (forall llm,
     (exists pre condition prompt post,
        conditionals = pre ++ (condition, prompt) :: post /\
        Forall (fun cp => cp.1 llm = false) pre /\
        condition llm = true) \/
     Forall (fun cp => cp.1 llm = false) conditionals).
Proof.
  split; [done|]. split; [|split].
  - intros llm pre c p post Hsplit Hpre Hc. simpl.
    by eapply select_scan_first_match.
  - intros llm Hnone. split.
    + by apply select_scan_no_match.
    + intros h kwargs. rewrite SelectorPromptTemplate_format_select. simpl.
      rewrite select_scan_no_match by done. split; [done|].
      by destruct default_prompt.
  - intros llm. apply select_scan_cases.
Qed.

(** ** The object store *)

Lemma load_dict_Ok h l d : load_dict h l = Ok d <-> h !! l = Some (DictObj d).
Proof. unfold load_dict. destruct (h !! l) as [[]|]; naive_solver. Qed.

Lemma load_list_Ok h l ls : load_list h l = Ok ls <-> h !! l = Some (ListObj ls).
Proof. unfold load_list. destruct (h !! l) as [[]|]; naive_solver. Qed.

Lemma load_message_Ok h l m :
  load_message h l = Ok m <-> h !! l = Some (ChatMessageObj m).
Proof. unfold load_message. destruct (h !! l) as [[]|]; naive_solver. Qed.

Lemma load_PromptTemplate_Ok h l p :
  load_PromptTemplate h l = Ok p <-> h !! l = Some (PromptTemplateObj p).
Proof. unfold load_PromptTemplate. destruct (h !! l) as [[]|]; naive_solver. Qed.

Lemma load_ChatPromptTemplate_Ok h l p :
  load_ChatPromptTemplate h l = Ok p <->
  h !! l = Some (ChatPromptTemplateObj p).
Proof.
  unfold load_ChatPromptTemplate. destruct (h !! l) as [[]|]; naive_solver.
Qed.

Lemma is_Ok_true {A} (r : result A) : is_Ok r = true <-> exists a, r = Ok a.
Proof. destruct r; simpl; split; try done; eauto; by intros [? ?]. Qed.

(** Objects of a store are still there, unchanged, in every extension. *)
Lemma load_dict_prefix h h' l d :
  h `prefix_of` h' -> load_dict h l = Ok d -> load_dict h' l = Ok d.
Proof. rewrite !load_dict_Ok. eauto using prefix_lookup_Some. Qed.

Lemma load_list_prefix h h' l ls :
  h `prefix_of` h' -> load_list h l = Ok ls -> load_list h' l = Ok ls.
Proof. rewrite !load_list_Ok. eauto using prefix_lookup_Some. Qed.

Lemma load_message_prefix h h' l m :
  h `prefix_of` h' -> load_message h l = Ok m -> load_message h' l = Ok m.
Proof. rewrite !load_message_Ok. eauto using prefix_lookup_Some. Qed.

Lemma load_PromptTemplate_prefix h h' l p :
  h `prefix_of` h' ->
  load_PromptTemplate h l = Ok p -> load_PromptTemplate h' l = Ok p.
Proof. rewrite !load_PromptTemplate_Ok. eauto using prefix_lookup_Some. Qed.

Lemma load_ChatPromptTemplate_prefix h h' l p :
  h `prefix_of` h' ->
  load_ChatPromptTemplate h l = Ok p -> load_ChatPromptTemplate h' l = Ok p.
Proof. rewrite !load_ChatPromptTemplate_Ok. eauto using prefix_lookup_Some. Qed.

Lemma lookup_alloc (h : heap) o : (h ++ [o]) !! length h = Some o.
Proof. by apply list_lookup_middle. Qed.

(** Writing to an object allocated after [h0] leaves [h0] a prefix. *)
Lemma prefix_insert_fresh (h0 h : heap) i o :
  h0 `prefix_of` h -> fresh_for h0 i -> h0 `prefix_of` <[i := o]> h.
Proof.
  intros [k ->] Hi. rewrite insert_app_r_alt by done. by apply prefix_app_r.
Qed.

(** ** [deepcopy] *)

Lemma memo_ok_empty h : memo_ok h ∅ h.
Proof. split; [done|]. intros x y Hxy. by rewrite lookup_empty in Hxy. Qed.

Lemma memo_ok_alloc h0 memo h x o o' :
  memo_ok h0 memo h ->
  h0 !! x = Some o ->
  copy_of o o' ->
  memo_ok h0 (<[x := length h]> memo) (h ++ [o']).
Proof.
  intros [Hpre Hmemo] Hx Hcopy. split; [by apply prefix_app_r|].
  intros x' y'. rewrite lookup_insert_Some. intros [[<- <-]|[Hne Hxy]].
  - split; [by apply prefix_length|]. exists o, o'. split; [done|].
    split; [|done]. apply lookup_alloc.
  - destruct (Hmemo x' y' Hxy) as (Hy & o1 & o1' & H1 & H2 & H3).
    split; [done|]. exists o1, o1'. split; [done|]. split; [|done].
    by apply lookup_app_l_Some.
Qed.

Lemma memo_ok_extend h0 memo h h' :
  memo_ok h0 memo h -> h `prefix_of` h' -> memo_ok h0 memo h'.
Proof.
  intros [Hpre Hmemo] Hext. split; [by etrans|].
  intros x y Hxy. destruct (Hmemo x y Hxy) as (Hy & o & o' & H1 & H2 & H3).
  split; [done|]. exists o, o'. eauto using prefix_lookup_Some.
Qed.

Lemma deepcopy_dict_ok h0 memo h x d :
  memo_ok h0 memo h ->
  load_dict h0 x = Ok d ->
  exists y memo' h',
    deepcopy_dict memo x h = Ok (y, memo', h') /\
    memo_ok h0 memo' h' /\
    h `prefix_of` h' /\
    fresh_for h0 y /\
    load_dict h' y = Ok d.
Proof.
  intros Hok Hx. unfold deepcopy_dict.
  destruct (memo !! x) as [y|] eqn:Hm.
  - exists y, memo, h. split; [done|]. split; [done|]. split; [done|].
    destruct Hok as [Hpre Hmemo].
    destruct (Hmemo x y Hm) as (Hy & o & o' & H1 & H2 & H3).
    split; [done|]. apply load_dict_Ok in Hx. rewrite Hx in H1.
    injection H1 as <-. destruct o'; try done. simpl in H3. subst.
    by apply load_dict_Ok.
  - rewrite (load_dict_prefix h0 h x d (proj1 Hok) Hx). simpl.
    exists (length h), (<[x := length h]> memo), (h ++ [DictObj d]).
    split; [done|]. split.
    { apply memo_ok_alloc with (o := DictObj d); [done| |done].
      by apply load_dict_Ok. }
    split; [by apply prefix_app_r|].
    split; [apply prefix_length, Hok|].
    apply load_dict_Ok, lookup_alloc.
Qed.

Lemma deepcopy_message_ok h0 memo h x m :
  memo_ok h0 memo h ->
  load_message h0 x = Ok m ->
  exists y memo' h',
    deepcopy_message memo x h = Ok (y, memo', h') /\
    memo_ok h0 memo' h' /\
    h `prefix_of` h' /\
    fresh_for h0 y /\
    load_message h' y = Ok m.
Proof.
  intros Hok Hx. unfold deepcopy_message.
  destruct (memo !! x) as [y|] eqn:Hm.
  - exists y, memo, h. split; [done|]. split; [done|]. split; [done|].
    destruct Hok as [Hpre Hmemo].
    destruct (Hmemo x y Hm) as (Hy & o & o' & H1 & H2 & H3).
    split; [done|]. apply load_message_Ok in Hx. rewrite Hx in H1.
    injection H1 as <-. destruct o'; try done. simpl in H3. subst.
    by apply load_message_Ok.
  - rewrite (load_message_prefix h0 h x m (proj1 Hok) Hx). simpl.
    exists (length h), (<[x := length h]> memo), (h ++ [ChatMessageObj m]).
    split; [done|]. split.
    { apply memo_ok_alloc with (o := ChatMessageObj m); [done| |done].
      by apply load_message_Ok. }
    split; [by apply prefix_app_r|].
    split; [apply prefix_length, Hok|].
    apply load_message_Ok, lookup_alloc.
Qed.

(** [y] holds a copy of the message at [x]. *)
Lemma deepcopy_items_ok h0 memo h xs :
  memo_ok h0 memo h ->
  Forall (fun x => exists m, load_message h0 x = Ok m) xs ->
  exists ys memo' h',
    deepcopy_items memo xs h = Ok (ys, memo', h') /\
    memo_ok h0 memo' h' /\
    h `prefix_of` h' /\
    Forall (fresh_for h0) ys /\
    Forall2 (same_message h0 h') xs ys.
Proof.
  intros Hok Hxs. revert memo h Hok.
  induction Hxs as [|x xs [m Hm] _ IH]; intros memo h Hok.
  - exists [], memo, h. split; [done|]. split; [done|]. split; [done|].
    split; constructor.
  - destruct (deepcopy_message_ok h0 memo h x m Hok Hm)
      as (y & memo1 & h1 & E1 & Hok1 & Hpre1 & Hy & Hy').
    destruct (IH memo1 h1 Hok1)
      as (ys & memo2 & h2 & E2 & Hok2 & Hpre2 & Hys & HF).
    exists (y :: ys), memo2, h2. simpl. rewrite E1. simpl. rewrite E2. simpl.
    split; [done|]. split; [done|]. split; [by etrans|].
    split; [by constructor|].
    constructor; [|done]. exists m. split; [done|].
    by eapply load_message_prefix.
Qed.

Lemma deepcopy_list_ok h0 memo h x xs :
  memo_ok h0 memo h ->
  memo !! x = None ->
  load_list h0 x = Ok xs ->
  Forall (fun x => exists m, load_message h0 x = Ok m) xs ->
  exists y ys memo' h',
    deepcopy_list memo x h = Ok (y, memo', h') /\
    memo_ok h0 memo' h' /\
    h `prefix_of` h' /\
    fresh_for h0 y /\
    load_list h' y = Ok ys /\
    Forall (fresh_for h0) ys /\
    Forall2 (same_message h0 h') xs ys.
Proof.
  intros Hok Hm Hx Hxs. unfold deepcopy_list. rewrite Hm.
  rewrite (load_list_prefix h0 h x xs (proj1 Hok) Hx). simpl.
  destruct (deepcopy_items_ok h0 memo h xs Hok Hxs)
    as (ys & memo1 & h1 & E1 & Hok1 & Hpre1 & Hys & HF).
  rewrite E1. simpl.
  exists (length h1), ys, (<[x := length h1]> memo1), (h1 ++ [ListObj ys]).
  split; [done|]. split.
  { apply memo_ok_alloc with (o := ListObj xs); [done| |done].
    by apply load_list_Ok. }
  split; [by apply prefix_app_r|].
  split; [apply prefix_length, Hok1|].
  split; [apply load_list_Ok, lookup_alloc|].
  split; [done|].
  eapply Forall2_impl; [exact HF|]. intros a b (m & H1 & H2).
  exists m. split; [done|]. eapply load_message_prefix; [|done].
  by apply prefix_app_r.
Qed.

(** ** [partial_format] *)

(** Updating a dictionary in place leaves every object of another class as
    it was. *)
Lemma lookup_insert_dict (h : list object) i j d d0 o :
  h !! i = Some (DictObj d0) ->
  h !! j = Some o ->
  (forall d', o <> DictObj d') ->
  <[i := DictObj d]> h !! j = Some o.
Proof.
  intros Hi Hj Hne. rewrite list_lookup_insert_ne; [done|].
  intros ->. rewrite Hi in Hj. injection Hj as <-. by eapply Hne.
Qed.

Lemma load_dict_insert (h : list object) i d d0 :
  load_dict h i = Ok d0 -> load_dict (<[i := DictObj d]> h) i = Ok d.
Proof.
  rewrite !load_dict_Ok. intros Hi. apply list_lookup_insert_eq.
  by eapply lookup_lt_Some.
Qed.

Lemma load_dict_insert_any (h : list object) i j d d0 dj :
  load_dict h i = Ok d0 ->
  load_dict h j = Ok dj ->
  exists dj', load_dict (<[i := DictObj d]> h) j = Ok dj'.
Proof.
  intros Hi Hj. destruct (decide (i = j)) as [->|Hne].
  - exists d. by eapply load_dict_insert.
  - exists dj. apply load_dict_Ok. rewrite list_lookup_insert_ne by done.
    by apply load_dict_Ok.
Qed.

Lemma PromptTemplate_partial_format_ok h self kwargs p stored md :
  load_PromptTemplate h self = Ok p ->
  load_dict h (pt_kwargs p) = Ok stored ->
  load_dict h (pt_metadata p) = Ok md ->
  exists prompt h' p' md',
    PromptTemplate_partial_format self kwargs h = Ok (prompt, h') /\
    h `prefix_of` h' /\
    load_PromptTemplate h' prompt = Ok p' /\
    pt_template p' = pt_template p /\
    pt_output_parser p' = pt_output_parser p /\
    load_dict h' (pt_kwargs p') = Ok (kwargs ∪ stored) /\
    load_dict h' (pt_metadata p') = Ok md' /\
    fresh_for h prompt /\
    fresh_for h (pt_kwargs p') /\
    fresh_for h (pt_metadata p').
Proof.
  intros Hp Hs Hmd.
  unfold PromptTemplate_partial_format, deepcopy_PromptTemplate.
  rewrite Hp. simpl.
  destruct (deepcopy_dict_ok h ∅ h (pt_kwargs p) stored (memo_ok_empty h) Hs)
    as (kw & memo1 & h1 & E1 & Hok1 & Hpre1 & Hkw & Hkw').
  rewrite E1. simpl.
  destruct (deepcopy_dict_ok h memo1 h1 (pt_metadata p) md Hok1 Hmd)
    as (mdl & memo2 & h2 & E2 & Hok2 & Hpre2 & Hmdl & Hmdl').
  rewrite E2. simpl.
  set (p' := {| pt_template := pt_template p; pt_kwargs := kw;
                pt_metadata := mdl;
                pt_output_parser := pt_output_parser p |}).
  set (h3 := h2 ++ [PromptTemplateObj p']).
  assert (h2 `prefix_of` h3) as Hpre3 by (by apply prefix_app_r).
  assert (load_PromptTemplate h3 (length h2) = Ok p') as Hp'.
  { apply load_PromptTemplate_Ok, lookup_alloc. }
  assert (load_dict h3 kw = Ok stored) as Hkw3.
  { eapply load_dict_prefix; [|exact Hkw']. by etrans. }
  assert (load_dict h3 mdl = Ok md) as Hmd3 by (by eapply load_dict_prefix).
  rewrite Hp'. simpl. unfold dict_update. rewrite Hkw3. simpl.
  destruct (load_dict_insert_any h3 kw mdl (kwargs ∪ stored) stored md
              Hkw3 Hmd3) as [md' Hmd'].
  exists (length h2), (<[kw := DictObj (kwargs ∪ stored)]> h3), p', md'.
  split; [done|]. split.
  { apply prefix_insert_fresh; [|done]. etrans; [exact Hpre1|]. by etrans. }
  split.
  { apply load_PromptTemplate_Ok.
    apply lookup_insert_dict with (d0 := stored); [by apply load_dict_Ok| |done].
    by apply load_PromptTemplate_Ok. }
  split; [done|]. split; [done|].
  split; [by eapply load_dict_insert|].
  split; [done|].
  split; [|done].
  unfold fresh_for. etrans; [apply prefix_length, Hpre1|].
  by apply prefix_length.
Qed.

Lemma PromptTemplate_format_eq h self llm kwargs p stored :
  load_PromptTemplate h self = Ok p ->
  load_dict h (pt_kwargs p) = Ok stored ->
  PromptTemplate_format h self llm kwargs =
  str_format (pt_template p) (merge_kwargs stored kwargs).
Proof.
  intros Hp Hs. unfold PromptTemplate_format. simpl. rewrite Hp. simpl.
  by rewrite Hs.
Qed.

Lemma merge_kwargs_bound (stored kwargs kw : gmap string string) :
  merge_kwargs (kwargs ∪ stored) kw = merge_kwargs stored (kw ∪ kwargs).
Proof. unfold merge_kwargs. by rewrite (assoc_L (∪)). Qed.

Lemma wf_PromptTemplate_true h self :
  wf_PromptTemplate h self = true <->
  exists p stored md,
    load_PromptTemplate h self = Ok p /\
    load_dict h (pt_kwargs p) = Ok stored /\
    load_dict h (pt_metadata p) = Ok md.
Proof.
  unfold wf_PromptTemplate. split.
  - destruct (load_PromptTemplate h self) as [p| |]; try done.
    intros [H1 H2]%andb_prop.
    apply is_Ok_true in H1 as [stored Hs]. apply is_Ok_true in H2 as [md Hmd].
    by exists p, stored, md.
  - intros (p & stored & md & -> & -> & ->). done.
Qed.

(** The first half of C5. *)
Lemma PromptTemplate_partial_format_frame h self kwargs :
  wf_PromptTemplate h self = true ->
  exists prompt h',
    PromptTemplate_partial_format self kwargs h = Ok (prompt, h') /\
    h `prefix_of` h' /\
    PromptTemplate_template_vars h' self =
      PromptTemplate_template_vars h self /\
    PromptTemplate_kwargs h' self = PromptTemplate_kwargs h self /\
    (forall llm kw, PromptTemplate_format h' self llm kw =
                    PromptTemplate_format h self llm kw) /\
    wf_PromptTemplate h' prompt = true /\
    Forall (fresh_for h) (PromptTemplate_objects h' prompt) /\
    PromptTemplate_template_vars h' prompt =
      PromptTemplate_template_vars h self /\
    PromptTemplate_kwargs h' prompt =
      (stored ← PromptTemplate_kwargs h self; Ok (kwargs ∪ stored)) /\
    (forall llm kw, PromptTemplate_format h' prompt llm kw =
                    PromptTemplate_format h self llm (kw ∪ kwargs)).
Proof.
  intros (p & stored & md & Hp & Hs & Hmd)%wf_PromptTemplate_true.
  destruct (PromptTemplate_partial_format_ok h self kwargs p stored md
              Hp Hs Hmd)
    as (prompt & h' & p' & md' & E & Hpre & Hp' & Ht & Ho & Hkw' & Hmd' &
        F1 & F2 & F3).
  assert (load_PromptTemplate h' self = Ok p) as Hp2
    by (by eapply load_PromptTemplate_prefix).
  assert (load_dict h' (pt_kwargs p) = Ok stored) as Hs2
    by (by eapply load_dict_prefix).
  exists prompt, h'. split; [done|]. split; [done|].
  split. { unfold PromptTemplate_template_vars. by rewrite Hp, Hp2. }
  split. { unfold PromptTemplate_kwargs. rewrite Hp, Hp2. simpl. congruence. }
  split.
  { intros llm kw. by rewrite (PromptTemplate_format_eq h' self llm kw p stored),
      (PromptTemplate_format_eq h self llm kw p stored). }
  split. { apply wf_PromptTemplate_true. by exists p', (kwargs ∪ stored), md'. }
  split.
  { unfold PromptTemplate_objects. rewrite Hp'. by repeat constructor. }
  split.
  { unfold PromptTemplate_template_vars. rewrite Hp, Hp'. simpl. by rewrite Ht. }
  split.
  { unfold PromptTemplate_kwargs. rewrite Hp, Hp'. simpl. by rewrite Hs, Hkw'. }
  intros llm kw.
  rewrite (PromptTemplate_format_eq h' prompt llm kw p' (kwargs ∪ stored))
    by done.
  rewrite (PromptTemplate_format_eq h self llm (kw ∪ kwargs) p stored) by done.
  by rewrite Ht, merge_kwargs_bound.
Qed.

Lemma wf_ChatPromptTemplate_true h self :
  wf_ChatPromptTemplate h self = true <->
  exists p stored md ms,
    load_ChatPromptTemplate h self = Ok p /\
    load_dict h (cpt_kwargs p) = Ok stored /\
    load_dict h (cpt_metadata p) = Ok md /\
    load_list h (cpt_message_templates p) = Ok ms /\
    Forall (fun x => exists m, load_message h x = Ok m) ms.
Proof.
  unfold wf_ChatPromptTemplate. split.
  - destruct (load_ChatPromptTemplate h self) as [p| |]; try done.
    intros [[H1 H2]%andb_prop H3]%andb_prop.
    apply is_Ok_true in H1 as [stored Hs]. apply is_Ok_true in H2 as [md Hmd].
    destruct (load_list h (cpt_message_templates p)) as [ms| |] eqn:Hl;
      try done.
    exists p, stored, md, ms. repeat split; try done.
    clear Hl. induction ms as [|x ms IH]; [constructor|].
    simpl in H3. apply andb_prop in H3 as [Hx Hms].
    constructor; [by apply is_Ok_true|by apply IH].
  - intros (p & stored & md & ms & -> & -> & -> & -> & HF). simpl.
    induction HF as [|x ms [m Hm] _ IH]; [done|]. simpl. by rewrite Hm.
Qed.

Lemma same_message_prefix h h' ms :
  h `prefix_of` h' ->
  Forall (fun x => exists m, load_message h x = Ok m) ms ->
  Forall2 (same_message h h') ms ms.
Proof.
  intros Hpre. induction 1 as [|x ms [m Hm] _ IH]; constructor; [|done].
  exists m. split; [done|]. by eapply load_message_prefix.
Qed.

Lemma template_vars_loop_ext h h' ms ms' acc :
  Forall2 (same_message h h') ms ms' ->
  template_vars_loop h ms acc = template_vars_loop h' ms' acc.
Proof.
  intros HF. revert acc.
  induction HF as [|x y ms ms' (m & H1 & H2) _ IH]; intros acc; simpl; [done|].
  rewrite H1, H2. simpl.
  destruct (get_template_vars (content_or_empty m)); simpl; done.
Qed.

Lemma format_messages_loop_ext h h' kw ms ms' acc :
  Forall2 (same_message h h') ms ms' ->
  format_messages_loop h kw ms acc = format_messages_loop h' kw ms' acc.
Proof.
  intros HF. revert acc.
  induction HF as [|x y ms ms' (m & H1 & H2) _ IH]; intros acc; simpl; [done|].
  rewrite H1, H2. simpl.
  destruct (format_message kw m); simpl; done.
Qed.

Lemma ChatPromptTemplate_partial_format_ok h self kwargs p stored md ms :
  load_ChatPromptTemplate h self = Ok p ->
  load_dict h (cpt_kwargs p) = Ok stored ->
  load_dict h (cpt_metadata p) = Ok md ->
  load_list h (cpt_message_templates p) = Ok ms ->
  Forall (fun x => exists m, load_message h x = Ok m) ms ->
  exists prompt h' p' md' ms',
    ChatPromptTemplate_partial_format self kwargs h = Ok (prompt, h') /\
    h `prefix_of` h' /\
    load_ChatPromptTemplate h' prompt = Ok p' /\
    cpt_output_parser p' = cpt_output_parser p /\
    load_dict h' (cpt_kwargs p') = Ok (kwargs ∪ stored) /\
    load_dict h' (cpt_metadata p') = Ok md' /\
    load_list h' (cpt_message_templates p') = Ok ms' /\
    Forall2 (same_message h h') ms ms' /\
    fresh_for h prompt /\
    fresh_for h (cpt_kwargs p') /\
    fresh_for h (cpt_metadata p') /\
    fresh_for h (cpt_message_templates p') /\
    Forall (fresh_for h) ms'.
Proof.
  intros Hp Hs Hmd Hms Hall.
  unfold ChatPromptTemplate_partial_format, deepcopy_ChatPromptTemplate.
  rewrite Hp. simpl.
  destruct (deepcopy_list_ok h ∅ h (cpt_message_templates p) ms
              (memo_ok_empty h) (lookup_empty _) Hms Hall)
    as (lst & ms' & memo1 & h1 & E1 & Hok1 & Hpre1 & Hlst & Hlst' & Hfresh & HF).
  rewrite E1. simpl.
  destruct (deepcopy_dict_ok h memo1 h1 (cpt_kwargs p) stored Hok1 Hs)
    as (kw & memo2 & h2 & E2 & Hok2 & Hpre2 & Hkw & Hkw').
  rewrite E2. simpl.
  destruct (deepcopy_dict_ok h memo2 h2 (cpt_metadata p) md Hok2 Hmd)
    as (mdl & memo3 & h3 & E3 & Hok3 & Hpre3 & Hmdl & Hmdl').
  rewrite E3. simpl.
  set (p' := {| cpt_message_templates := lst; cpt_kwargs := kw;
                cpt_metadata := mdl;
                cpt_output_parser := cpt_output_parser p |}).
  set (h4 := h3 ++ [ChatPromptTemplateObj p']).
  assert (h3 `prefix_of` h4) as Hpre4 by (by apply prefix_app_r).
  assert (h1 `prefix_of` h4) as Hpre14 by (etrans; [exact Hpre2|]; by etrans).
  assert (load_ChatPromptTemplate h4 (length h3) = Ok p') as Hp'.
  { apply load_ChatPromptTemplate_Ok, lookup_alloc. }
  assert (load_dict h4 kw = Ok stored) as Hkw4.
  { eapply load_dict_prefix; [|exact Hkw']. by etrans. }
  assert (load_dict h4 mdl = Ok md) as Hmd4.
  { eapply load_dict_prefix; [exact Hpre4|exact Hmdl']. }
  rewrite Hp'. simpl. unfold dict_update. rewrite Hkw4. simpl.
  destruct (load_dict_insert_any h4 kw mdl (kwargs ∪ stored) stored md
              Hkw4 Hmd4) as [md' Hmd'].
  exists (length h3), (<[kw := DictObj (kwargs ∪ stored)]> h4), p', md', ms'.
  split; [done|]. split.
  { apply prefix_insert_fresh; [|done]. etrans; [exact Hpre1|]. done. }
  split.
  { apply load_ChatPromptTemplate_Ok.
    apply lookup_insert_dict with (d0 := stored); [by apply load_dict_Ok| |done].
    by apply load_ChatPromptTemplate_Ok. }
  split; [done|].
  split; [by eapply load_dict_insert|].
  split; [done|].
  split.
  { apply load_list_Ok.
    apply lookup_insert_dict with (d0 := stored); [by apply load_dict_Ok| |done].
    apply load_list_Ok. by eapply load_list_prefix. }
  split.
  { eapply Forall2_impl; [exact HF|]. intros x y (m & H1 & H2).
    exists m. split; [done|]. apply load_message_Ok.
    apply lookup_insert_dict with (d0 := stored); [by apply load_dict_Ok| |done].
    apply load_message_Ok. by eapply load_message_prefix. }
  split.
  { unfold fresh_for. etrans; [apply prefix_length, Hpre1|].
    etrans; [apply prefix_length, Hpre2|]. by apply prefix_length. }
  done.
Qed.

Lemma ChatPromptTemplate_format_messages_eq h self llm kwargs p stored ms :
  load_ChatPromptTemplate h self = Ok p ->
  load_dict h (cpt_kwargs p) = Ok stored ->
  load_list h (cpt_message_templates p) = Ok ms ->
  ChatPromptTemplate_format_messages h self llm kwargs =
  format_messages_loop h (merge_kwargs stored kwargs) ms [].
Proof.
  intros Hp Hs Hms. unfold ChatPromptTemplate_format_messages. simpl.
  rewrite Hp. simpl. rewrite Hs. simpl. by rewrite Hms.
Qed.

Lemma ChatPromptTemplate_format_eq h self llm kwargs :
  ChatPromptTemplate_format h self llm kwargs =
  (messages ← ChatPromptTemplate_format_messages h self None kwargs;
   Ok (messages_to_prompt messages)).
Proof. reflexivity. Qed.

(** The second half of C5. *)
Lemma ChatPromptTemplate_partial_format_frame h self kwargs :
  wf_ChatPromptTemplate h self = true ->
  exists prompt h',
    ChatPromptTemplate_partial_format self kwargs h = Ok (prompt, h') /\
    h `prefix_of` h' /\
    ChatPromptTemplate_template_vars h' self =
      ChatPromptTemplate_template_vars h self /\
    ChatPromptTemplate_kwargs h' self = ChatPromptTemplate_kwargs h self /\
    (forall llm kw, ChatPromptTemplate_format_messages h' self llm kw =
                    ChatPromptTemplate_format_messages h self llm kw) /\
    (forall llm kw, ChatPromptTemplate_format h' self llm kw =
                    ChatPromptTemplate_format h self llm kw) /\
    wf_ChatPromptTemplate h' prompt = true /\
    Forall (fresh_for h) (ChatPromptTemplate_objects h' prompt) /\
    ChatPromptTemplate_template_vars h' prompt =
      ChatPromptTemplate_template_vars h self /\
    ChatPromptTemplate_kwargs h' prompt =
      (stored ← ChatPromptTemplate_kwargs h self; Ok (kwargs ∪ stored)) /\
    (forall llm kw, ChatPromptTemplate_format_messages h' prompt llm kw =
                    ChatPromptTemplate_format_messages h self llm (kw ∪ kwargs)) /\
    (forall llm kw, ChatPromptTemplate_format h' prompt llm kw =
                    ChatPromptTemplate_format h self llm (kw ∪ kwargs)).
Proof.
  intros (p & stored & md & ms & Hp & Hs & Hmd & Hms & Hall)
    %wf_ChatPromptTemplate_true.
  destruct (ChatPromptTemplate_partial_format_ok h self kwargs p stored md ms
              Hp Hs Hmd Hms Hall)
    as (prompt & h' & p' & md' & ms' & E & Hpre & Hp' & Ho & Hkw' & Hmd' &
        Hms' & HF & F1 & F2 & F3 & F4 & F5).
  assert (load_ChatPromptTemplate h' self = Ok p) as Hp2
    by (by eapply load_ChatPromptTemplate_prefix).
  assert (load_dict h' (cpt_kwargs p) = Ok stored) as Hs2
    by (by eapply load_dict_prefix).
  assert (load_list h' (cpt_message_templates p) = Ok ms) as Hms2
    by (by eapply load_list_prefix).
  pose proof (same_message_prefix h h' ms Hpre Hall) as Hsame.
  assert (forall llm kw, ChatPromptTemplate_format_messages h' self llm kw =
                         ChatPromptTemplate_format_messages h self llm kw)
    as Hfm.
  { intros llm kw.
    rewrite (ChatPromptTemplate_format_messages_eq h' self llm kw p stored ms),
      (ChatPromptTemplate_format_messages_eq h self llm kw p stored ms)
      by done.
    symmetry. by apply format_messages_loop_ext. }
  assert (forall llm kw,
            ChatPromptTemplate_format_messages h' prompt llm kw =
            ChatPromptTemplate_format_messages h self llm (kw ∪ kwargs))
    as Hfm'.
  { intros llm kw.
    rewrite (ChatPromptTemplate_format_messages_eq h' prompt llm kw p'
               (kwargs ∪ stored) ms'),
      (ChatPromptTemplate_format_messages_eq h self llm (kw ∪ kwargs) p
         stored ms) by done.
    rewrite merge_kwargs_bound. symmetry. by apply format_messages_loop_ext. }
  exists prompt, h'. split; [done|]. split; [done|].
  split.
  { unfold ChatPromptTemplate_template_vars. rewrite Hp, Hp2. simpl.
    rewrite Hms, Hms2. simpl. symmetry. by apply template_vars_loop_ext. }
  split. { unfold ChatPromptTemplate_kwargs. rewrite Hp, Hp2. simpl. congruence. }
  split; [done|].
  split. { intros llm kw. by rewrite !ChatPromptTemplate_format_eq, Hfm. }
  split.
  { apply wf_ChatPromptTemplate_true.
    exists p', (kwargs ∪ stored), md', ms'. repeat split; try done.
    clear -HF. induction HF as [|x y ms ms' (m & _ & Hm) _ IH]; constructor;
      eauto. }
  split.
  { unfold ChatPromptTemplate_objects. rewrite Hp', Hms'.
    by repeat (constructor; [done|]). }
  split.
  { unfold ChatPromptTemplate_template_vars. rewrite Hp, Hp'. simpl.
    rewrite Hms, Hms'. simpl. symmetry. by apply template_vars_loop_ext. }
  split.
  { unfold ChatPromptTemplate_kwargs. rewrite Hp, Hp'. simpl.
    by rewrite Hs, Hkw'. }
  split; [done|].
  intros llm kw. by rewrite !ChatPromptTemplate_format_eq, Hfm'.
Qed.

(** The constructors build well-formed instances. *)
Lemma PromptTemplate_init_wf template prompt_type output_parser kwargs h :
  let '(self, h') :=
    PromptTemplate_init template prompt_type output_parser kwargs h in
  h `prefix_of` h' /\ wf_PromptTemplate h' self = true.
Proof.
  unfold PromptTemplate_init, alloc. simpl.
  set (h1 := h ++ [DictObj kwargs]).
  set (h2 := h1 ++ [DictObj {[ "prompt_type" := prompt_type ]}]).
  assert (h `prefix_of` h1) as H01 by (by apply prefix_app_r).
  assert (h1 `prefix_of` h2) as H12 by (by apply prefix_app_r).
  split; [by do 2 apply prefix_app_r|].
  apply wf_PromptTemplate_true. eexists _, kwargs, _.
  split; [apply load_PromptTemplate_Ok, lookup_alloc|]. simpl. split.
  - apply load_dict_prefix with (h := h1); [by do 2 apply prefix_app_r|].
    apply load_dict_Ok, lookup_alloc.
  - apply load_dict_prefix with (h := h2); [by apply prefix_app_r|].
    apply load_dict_Ok, lookup_alloc.
Qed.

Lemma ChatPromptTemplate_init_wf message_templates prompt_type output_parser
    kwargs h ms :
  load_list h message_templates = Ok ms ->
  Forall (fun x => exists m, load_message h x = Ok m) ms ->
  let '(self, h') :=
    ChatPromptTemplate_init message_templates prompt_type output_parser
      kwargs h in
  h `prefix_of` h' /\ wf_ChatPromptTemplate h' self = true.
Proof.
  intros Hms Hall. unfold ChatPromptTemplate_init, alloc. simpl.
  set (h1 := h ++ [DictObj kwargs]).
  set (h2 := h1 ++ [DictObj {[ "prompt_type" := prompt_type ]}]).
  assert (h `prefix_of` h1) as H01 by (by apply prefix_app_r).
  assert (h1 `prefix_of` h2) as H12 by (by apply prefix_app_r).
  match goal with
  | |- h `prefix_of` ?x /\ _ => assert (h `prefix_of` x) as H03
  end.
  { by do 3 apply prefix_app_r. }
  split; [done|].
  apply wf_ChatPromptTemplate_true. eexists _, kwargs, _, ms.
  split; [apply load_ChatPromptTemplate_Ok, lookup_alloc|]. simpl.
  split.
  { apply load_dict_prefix with (h := h1); [by do 2 apply prefix_app_r|].
    apply load_dict_Ok, lookup_alloc. }
  split.
  { apply load_dict_prefix with (h := h2); [by apply prefix_app_r|].
    apply load_dict_Ok, lookup_alloc. }
  split. { by eapply load_list_prefix. }
  eapply Forall_impl; [exact Hall|]. intros x [m Hm]. exists m.
  by eapply load_message_prefix.
Qed.

(** The objects of a well-formed instance exist. *)
Lemma PromptTemplate_objects_allocated h self :
  wf_PromptTemplate h self = true ->
  Forall (fun l => l < length h) (PromptTemplate_objects h self).
Proof.
  intros (p & stored & md & Hp & Hs & Hmd)%wf_PromptTemplate_true.
  unfold PromptTemplate_objects. rewrite Hp.
  apply load_PromptTemplate_Ok in Hp. apply load_dict_Ok in Hs, Hmd.
  repeat constructor; by eapply lookup_lt_Some.
Qed.

Lemma ChatPromptTemplate_objects_allocated h self :
  wf_ChatPromptTemplate h self = true ->
  Forall (fun l => l < length h) (ChatPromptTemplate_objects h self).
Proof.
  intros (p & stored & md & ms & Hp & Hs & Hmd & Hms & Hall)
    %wf_ChatPromptTemplate_true.
  unfold ChatPromptTemplate_objects. rewrite Hp, Hms.
  apply load_ChatPromptTemplate_Ok in Hp. apply load_dict_Ok in Hs, Hmd.
  apply load_list_Ok in Hms.
  repeat (constructor; [by eapply lookup_lt_Some|]).
  eapply Forall_impl; [exact Hall|]. intros x [m Hm].
  apply load_message_Ok in Hm. by eapply lookup_lt_Some.
Qed.

Lemma fresh_not_allocated (h : list object) (fresh old : list loc) :
  Forall (fresh_for h) fresh ->
  Forall (fun l => l < length h) old ->
  forall l, l ∈ fresh -> l ∉ old.
Proof.
  rewrite !Forall_forall. intros Hf Ho l Hin Hin'.
  specialize (Hf l Hin). specialize (Ho l Hin'). unfold fresh_for in Hf. lia.
Qed.

(** C5: [partial_format] on a [PromptTemplate] and on a [ChatPromptTemplate]
    returns a new instance and leaves the receiver alone.  Every object that
    existed before the call is unchanged, so the receiver's [template_vars],
    its stored bindings and what it renders are as before.  The returned
    instance shares no object with the receiver: it consists of objects
    allocated by the call only.  It has the receiver's placeholders, its
    stored bindings are the receiver's overridden by the new ones, and it
    renders as the receiver would with the new bindings supplied at the
    call. *)
Theorem partial_format_does_not_mutate h self kwargs :
  (wf_PromptTemplate h self = true ->
   exists prompt h',
     PromptTemplate_partial_format self kwargs h = Ok (prompt, h') /\
     (forall l, l ∈ PromptTemplate_objects h' prompt ->
                l ∉ PromptTemplate_objects h self) /\
     h `prefix_of` h' /\
     PromptTemplate_template_vars h' self =
       PromptTemplate_template_vars h self /\
     PromptTemplate_kwargs h' self = PromptTemplate_kwargs h self /\
     (forall llm kw, PromptTemplate_format h' self llm kw =
                     PromptTemplate_format h self llm kw) /\
     wf_PromptTemplate h' prompt = true /\
     Forall (fresh_for h) (PromptTemplate_objects h' prompt) /\
     PromptTemplate_template_vars h' prompt =
       PromptTemplate_template_vars h self /\
     PromptTemplate_kwargs h' prompt =
       (stored ← PromptTemplate_kwargs h self; Ok (kwargs ∪ stored)) /\
     (forall llm kw, PromptTemplate_format h' prompt llm kw =
                     PromptTemplate_format h self llm (kw ∪ kwargs))) /\
  (wf_ChatPromptTemplate h self = true ->
   exists prompt h',
     ChatPromptTemplate_partial_format self kwargs h = Ok (prompt, h') /\
     (forall l, l ∈ ChatPromptTemplate_objects h' prompt ->
                l ∉ ChatPromptTemplate_objects h self) /\
     h `prefix_of` h' /\
     ChatPromptTemplate_template_vars h' self =
       ChatPromptTemplate_template_vars h self /\
     ChatPromptTemplate_kwargs h' self = ChatPromptTemplate_kwargs h self /\
     (forall llm kw, ChatPromptTemplate_format_messages h' self llm kw =
                     ChatPromptTemplate_format_messages h self llm kw) /\
     (forall llm kw, ChatPromptTemplate_format h' self llm kw =
                     ChatPromptTemplate_format h self llm kw) /\
     wf_ChatPromptTemplate h' prompt = true /\
     Forall (fresh_for h) (ChatPromptTemplate_objects h' prompt) /\
     ChatPromptTemplate_template_vars h' prompt =
       ChatPromptTemplate_template_vars h self /\
     ChatPromptTemplate_kwargs h' prompt =
       (stored ← ChatPromptTemplate_kwargs h self; Ok (kwargs ∪ stored)) /\
     (forall llm kw, ChatPromptTemplate_format_messages h' prompt llm kw =
                     ChatPromptTemplate_format_messages h self llm
                       (kw ∪ kwargs)) /\
     (forall llm kw, ChatPromptTemplate_format h' prompt llm kw =
                     ChatPromptTemplate_format h self llm (kw ∪ kwargs))).
Proof.
  split; intros Hwf.
  - destruct (PromptTemplate_partial_format_frame h self kwargs Hwf)
      as (prompt & h' & E & Hrest).
    exists prompt, h'. split; [exact E|]. split; [|exact Hrest].
    destruct Hrest as (_ & _ & _ & _ & _ & Hfresh & _).
    apply (fresh_not_allocated h); [exact Hfresh|].
    by apply PromptTemplate_objects_allocated.
  - destruct (ChatPromptTemplate_partial_format_frame h self kwargs Hwf)
      as (prompt & h' & E & Hrest).
    exists prompt, h'. split; [exact E|]. split; [|exact Hrest].
    destruct Hrest as (_ & _ & _ & _ & _ & _ & Hfresh & _).
    apply (fresh_not_allocated h); [exact Hfresh|].
    by apply ChatPromptTemplate_objects_allocated.
Qed.

(** ** Prompts of any class *)

Lemma BasePromptTemplate_nested_ind (P : BasePromptTemplate -> Prop) :
  (forall self, P (PromptTemplateRef self)) ->
  (forall self, P (ChatPromptTemplateRef self)) ->
  (forall d cs, P d -> Forall (fun cp => P cp.2) cs ->
                P (SelectorPromptTemplate d cs)) ->
  (forall self, P (LangchainPromptTemplateVal self)) ->
  forall t, P t.
Proof.
  intros HP HC HS HL. fix IH 1.
  intros [self|self|d cs|self]; [apply HP|apply HC| |apply HL].
  apply HS; [apply IH|].
  induction cs as [|[c p] cs IHcs]; constructor; [apply IH|exact IHcs].
Qed.

Lemma forallb_Forall {A} (f : A -> bool) (l : list A) :
  forallb f l = true <-> Forall (fun x => f x = true) l.
Proof.
  induction l as [|x l IH]; simpl.
  - split; [constructor|done].
  - rewrite andb_true_iff, IH. split.
    + intros [? ?]. by constructor.
    + inversion 1; by subst.
Qed.

Lemma existsb_false_Forall {A} (f : A -> bool) (l : list A) :
  existsb f l = false <-> Forall (fun x => f x = false) l.
Proof.
  induction l as [|x l IH]; simpl.
  - split; [constructor|done].
  - rewrite orb_false_iff, IH. split.
    + intros [? ?]. by constructor.
    + inversion 1; by subst.
Qed.

Lemma wf_selector h d cs :
  wf h (SelectorPromptTemplate d cs) = true <->
  wf h d = true /\ Forall (fun cp => wf h cp.2 = true) cs.
Proof. simpl. by rewrite andb_true_iff, forallb_Forall. Qed.

Lemma has_langchain_selector d cs :
  has_langchain (SelectorPromptTemplate d cs) = false <->
  has_langchain d = false /\ Forall (fun cp => has_langchain cp.2 = false) cs.
Proof. simpl. by rewrite orb_false_iff, existsb_false_Forall. Qed.

Lemma SelectorPromptTemplate_partial_format_eq d cs k h :
  BasePromptTemplate_partial_format (SelectorPromptTemplate d cs) k h =
  ('(d', h1) ← BasePromptTemplate_partial_format d k h;
   '(cs', h2) ← conditionals_partial_format cs k h1;
   Ok (SelectorPromptTemplate_init d' (Some cs'), h2)).
Proof.
  simpl. destruct (BasePromptTemplate_partial_format d k h) as [[d' h1]| |];
    simpl; try done.
  match goal with
  | |- (?f cs h1 ≫= _) = _ =>
      assert (forall cs h, f cs h = conditionals_partial_format cs k h) as ->
  end; [|done].
  clear. induction cs as [|[c p] cs IH]; intros h; simpl; [done|].
  destruct (BasePromptTemplate_partial_format p k h) as [[p' h1]| |];
    simpl; try done.
  by rewrite IH.
Qed.

(** *** Frame: a prompt does not depend on objects allocated later *)

Lemma PromptTemplate_frame h h' self :
  h `prefix_of` h' ->
  wf_PromptTemplate h self = true ->
  wf_PromptTemplate h' self = true /\
  PromptTemplate_objects h' self = PromptTemplate_objects h self /\
  PromptTemplate_template_vars h' self = PromptTemplate_template_vars h self /\
  PromptTemplate_kwargs h' self = PromptTemplate_kwargs h self /\
  (forall llm kw, PromptTemplate_format h' self llm kw =
                  PromptTemplate_format h self llm kw).
Proof.
  intros Hpre (p & stored & md & Hp & Hs & Hmd)%wf_PromptTemplate_true.
  assert (load_PromptTemplate h' self = Ok p) as Hp2
    by (by eapply load_PromptTemplate_prefix).
  assert (load_dict h' (pt_kwargs p) = Ok stored) as Hs2
    by (by eapply load_dict_prefix).
  assert (load_dict h' (pt_metadata p) = Ok md) as Hmd2
    by (by eapply load_dict_prefix).
  split. { apply wf_PromptTemplate_true. by exists p, stored, md. }
  split. { unfold PromptTemplate_objects. by rewrite Hp, Hp2. }
  split. { unfold PromptTemplate_template_vars. by rewrite Hp, Hp2. }
  split. { unfold PromptTemplate_kwargs. rewrite Hp, Hp2. simpl. congruence. }
  intros llm kw.
  by rewrite (PromptTemplate_format_eq h' self llm kw p stored),
    (PromptTemplate_format_eq h self llm kw p stored).
Qed.

Lemma ChatPromptTemplate_frame h h' self :
  h `prefix_of` h' ->
  wf_ChatPromptTemplate h self = true ->
  wf_ChatPromptTemplate h' self = true /\
  ChatPromptTemplate_objects h' self = ChatPromptTemplate_objects h self /\
  ChatPromptTemplate_template_vars h' self =
    ChatPromptTemplate_template_vars h self /\
  ChatPromptTemplate_kwargs h' self = ChatPromptTemplate_kwargs h self /\
  (forall llm kw, ChatPromptTemplate_format_messages h' self llm kw =
                  ChatPromptTemplate_format_messages h self llm kw) /\
  (forall llm kw, ChatPromptTemplate_format h' self llm kw =
                  ChatPromptTemplate_format h self llm kw).
Proof.
  intros Hpre (p & stored & md & ms & Hp & Hs & Hmd & Hms & Hall)
    %wf_ChatPromptTemplate_true.
  assert (load_ChatPromptTemplate h' self = Ok p) as Hp2
    by (by eapply load_ChatPromptTemplate_prefix).
  assert (load_dict h' (cpt_kwargs p) = Ok stored) as Hs2
    by (by eapply load_dict_prefix).
  assert (load_dict h' (cpt_metadata p) = Ok md) as Hmd2
    by (by eapply load_dict_prefix).
  assert (load_list h' (cpt_message_templates p) = Ok ms) as Hms2
    by (by eapply load_list_prefix).
  pose proof (same_message_prefix h h' ms Hpre Hall) as Hsame.
  assert (forall llm kw, ChatPromptTemplate_format_messages h' self llm kw =
                         ChatPromptTemplate_format_messages h self llm kw)
    as Hfm.
  { intros llm kw.
    rewrite (ChatPromptTemplate_format_messages_eq h' self llm kw p stored ms),
      (ChatPromptTemplate_format_messages_eq h self llm kw p stored ms)
      by done.
    symmetry. by apply format_messages_loop_ext. }
  split.
  { apply wf_ChatPromptTemplate_true. exists p, stored, md, ms.
    repeat split; try done.
    eapply Forall_impl; [exact Hall|]. intros x [m Hm]. exists m.
    by eapply load_message_prefix. }
  split. { unfold ChatPromptTemplate_objects. by rewrite Hp, Hp2, Hms, Hms2. }
  split.
  { unfold ChatPromptTemplate_template_vars. rewrite Hp, Hp2. simpl.
    rewrite Hms, Hms2. simpl. symmetry. by apply template_vars_loop_ext. }
  split. { unfold ChatPromptTemplate_kwargs. rewrite Hp, Hp2. simpl. congruence. }
  split; [done|].
  intros llm kw. by rewrite !ChatPromptTemplate_format_eq, Hfm.
Qed.

Lemma wf_prefix h h' t :
  h `prefix_of` h' -> wf h t = true -> wf h' t = true.
Proof.
  intros Hpre. induction t as [self|self|d cs IHd IHcs|self]
    using BasePromptTemplate_nested_ind; simpl.
  - intros Hwf. by apply (PromptTemplate_frame h h' self Hpre Hwf).
  - intros Hwf. by apply (ChatPromptTemplate_frame h h' self Hpre Hwf).
  - rewrite !andb_true_iff, !forallb_Forall. intros [Hd Hcs].
    split; [by apply IHd|].
    induction Hcs as [|cp cs Hcp Hcs IH]; constructor.
    + inversion IHcs; subst. eauto.
    + inversion IHcs; subst. eauto.
  - done.
Qed.

Lemma select_scan_in (cs : list ((LLM -> bool) * BasePromptTemplate)) llm d :
  select_scan cs llm d = d \/
  exists c, (c, select_scan cs llm d) ∈ cs.
Proof.
  induction cs as [|[c p] cs IH]; simpl; [by left|].
  destruct (c llm).
  - right. exists c. by left.
  - destruct IH as [->|[c' Hin]]; [by left|].
    right. exists c'. by right.
Qed.

Lemma format_prefix h h' t :
  h `prefix_of` h' ->
  wf h t = true ->
  forall llm kw,
    BasePromptTemplate_format h' t llm kw = BasePromptTemplate_format h t llm kw.
Proof.
  intros Hpre. induction t as [self|self|d cs IHd IHcs|self]
    using BasePromptTemplate_nested_ind; intros Hwf llm kw.
  - by apply (PromptTemplate_frame h h' self Hpre Hwf).
  - by apply (ChatPromptTemplate_frame h h' self Hpre Hwf).
  - apply wf_selector in Hwf as [Hd Hcs].
    rewrite !SelectorPromptTemplate_format_select.
    destruct llm as [l|]; simpl; [|by apply IHd].
    destruct (select_scan_in cs l d) as [->|[c Hin]]; [by apply IHd|].
    rewrite Forall_forall in IHcs, Hcs.
    apply (IHcs _ Hin). apply (Hcs _ Hin).
  - done.
Qed.

(** *** Bound copies *)

Lemma bound_copy_selector k h h' d cs d' cs' :
  bound_copy k h h' (SelectorPromptTemplate d cs)
    (SelectorPromptTemplate d' cs') <->
  bound_copy k h h' d d' /\
  Forall2 (fun cp cp' => cp.1 = cp'.1 /\ bound_copy k h h' cp.2 cp'.2) cs cs'.
Proof.
  simpl. apply and_iff_compat_l. revert cs'.
  induction cs as [|[c p] cs IH]; intros [|[c' p'] cs'].
  - split; [constructor|done].
  - split; [done|inversion 1].
  - split; [done|inversion 1].
  - rewrite IH. split.
    + intros (-> & Hp & HF). by constructor.
    + inversion 1 as [|? ? ? ? [Hc Hp] HF]; subst. simpl in *. by subst.
Qed.

Lemma PromptTemplate_bound_copy_mono k h0 h1 h2 h3 self prompt :
  h0 `prefix_of` h1 ->
  h2 `prefix_of` h3 ->
  wf_PromptTemplate h0 self = true ->
  wf_PromptTemplate h2 prompt = true ->
  PromptTemplate_bound_copy k h1 h2 self prompt ->
  PromptTemplate_bound_copy k h0 h3 self prompt.
Proof.
  intros H01 H23 Hw Hw' (Hfresh & Hv & Hk & Hf).
  destruct (PromptTemplate_frame h0 h1 self H01 Hw) as (_ & _ & Ev & Ek & Ef).
  destruct (PromptTemplate_frame h2 h3 prompt H23 Hw')
    as (_ & Eo' & Ev' & Ek' & Ef').
  split.
  { rewrite Eo'. eapply Forall_impl; [exact Hfresh|]. intros l Hl.
    unfold fresh_for in *. etrans; [apply prefix_length, H01|done]. }
  split. { by rewrite Ev', Hv, Ev. }
  split. { by rewrite Ek', Hk, Ek. }
  intros llm kw. by rewrite Ef', Hf, Ef.
Qed.

Lemma ChatPromptTemplate_bound_copy_mono k h0 h1 h2 h3 self prompt :
  h0 `prefix_of` h1 ->
  h2 `prefix_of` h3 ->
  wf_ChatPromptTemplate h0 self = true ->
  wf_ChatPromptTemplate h2 prompt = true ->
  ChatPromptTemplate_bound_copy k h1 h2 self prompt ->
  ChatPromptTemplate_bound_copy k h0 h3 self prompt.
Proof.
  intros H01 H23 Hw Hw' (Hfresh & Hv & Hk & Hm & Hf).
  destruct (ChatPromptTemplate_frame h0 h1 self H01 Hw)
    as (_ & _ & Ev & Ek & Em & Ef).
  destruct (ChatPromptTemplate_frame h2 h3 prompt H23 Hw')
    as (_ & Eo' & Ev' & Ek' & Em' & Ef').
  split.
  { rewrite Eo'. eapply Forall_impl; [exact Hfresh|]. intros l Hl.
    unfold fresh_for in *. etrans; [apply prefix_length, H01|done]. }
  split. { by rewrite Ev', Hv, Ev. }
  split. { by rewrite Ek', Hk, Ek. }
  split. { intros llm kw. by rewrite Em', Hm, Em. }
  intros llm kw. by rewrite Ef', Hf, Ef.
Qed.

Lemma bound_copy_mono k h0 h1 h2 h3 t t' :
  h0 `prefix_of` h1 ->
  h2 `prefix_of` h3 ->
  wf h0 t = true ->
  wf h2 t' = true ->
  bound_copy k h1 h2 t t' ->
  bound_copy k h0 h3 t t'.
Proof.
  intros H01 H23. revert t'.
  induction t as [self|self|d cs IHd IHcs|self]
    using BasePromptTemplate_nested_ind;
    intros [self'|self'|d' cs'|self'] Hw Hw' Hb; try done.
  - by eapply PromptTemplate_bound_copy_mono.
  - by eapply ChatPromptTemplate_bound_copy_mono.
  - apply bound_copy_selector in Hb as [Hd HF].
    apply wf_selector in Hw as [Hwd Hwcs].
    apply wf_selector in Hw' as [Hwd' Hwcs'].
    apply bound_copy_selector. split; [by apply IHd|].
    clear -IHcs Hwcs Hwcs' HF.
    induction HF as [|[c p] [c' p'] cs cs' [Hc Hb] HF IH]; constructor.
    + inversion IHcs; inversion Hwcs; inversion Hwcs'; subst.
      split; [done|]. simpl in *. eauto.
    + inversion IHcs; inversion Hwcs; inversion Hwcs'; subst. eauto.
Qed.

(** [partial_format] on a prompt with no Langchain prompt inside. *)
Lemma partial_format_bound t :
  forall k h,
    wf h t = true ->
    has_langchain t = false ->
    exists t' h',
      BasePromptTemplate_partial_format t k h = Ok (t', h') /\
      h `prefix_of` h' /\
      wf h' t' = true /\
      has_langchain t' = false /\
      bound_copy k h h' t t'.
Proof.
  induction t as [self|self|d cs IHd IHcs|self]
    using BasePromptTemplate_nested_ind;
    intros k h Hwf Hl.
  - destruct (PromptTemplate_partial_format_frame h self k Hwf)
      as (prompt & h' & E & Hpre & _ & _ & _ & Hwf' & Hb).
    exists (PromptTemplateRef prompt), h'. simpl. rewrite E.
    split; [done|]. split; [done|]. split; [done|]. split; [done|]. exact Hb.
  - destruct (ChatPromptTemplate_partial_format_frame h self k Hwf)
      as (prompt & h' & E & Hpre & _ & _ & _ & _ & Hwf' & Hb).
    exists (ChatPromptTemplateRef prompt), h'. simpl. rewrite E.
    split; [done|]. split; [done|]. split; [done|]. split; [done|]. exact Hb.
  - apply wf_selector in Hwf as [Hwd Hwcs].
    apply has_langchain_selector in Hl as [Hld Hlcs].
    rewrite SelectorPromptTemplate_partial_format_eq.
    destruct (IHd k h Hwd Hld) as (d' & h1 & E1 & Hpre1 & Hwd' & Hld' & Hbd).
    rewrite E1. simpl.
    assert (forall h1, h `prefix_of` h1 ->
              exists cs' h2,
                conditionals_partial_format cs k h1 = Ok (cs', h2) /\
                h1 `prefix_of` h2 /\
                Forall (fun cp => wf h2 cp.2 = true) cs' /\
                Forall (fun cp => has_langchain cp.2 = false) cs' /\
                Forall2 (fun cp cp' =>
                           cp.1 = cp'.1 /\ bound_copy k h h2 cp.2 cp'.2)
                        cs cs') as Hcs.
    { clear -IHcs Hwcs Hlcs.
      induction cs as [|[c p] cs IH]; intros h1 Hpre.
      - exists [], h1. by repeat split.
      - inversion IHcs as [|? ? IHp IHcs']; subst.
        inversion Hwcs as [|? ? Hwp Hwcs']; subst.
        inversion Hlcs as [|? ? Hlp Hlcs']; subst. simpl in *.
        destruct (IHp k h1 (wf_prefix h h1 p Hpre Hwp) Hlp)
          as (p' & h2 & E & Hpre2 & Hwp' & Hlp' & Hbp).
        destruct (IH IHcs' Hwcs' Hlcs' h2 ltac:(by etrans))
          as (cs' & h3 & E' & Hpre3 & Hw' & Hl' & HF).
        exists ((c, p') :: cs'), h3. rewrite E. simpl. rewrite E'. simpl.
        split; [done|]. split; [by etrans|].
        split. { constructor; [|done]. simpl. by eapply wf_prefix. }
        split; [by constructor|].
        constructor; [|done]. split; [done|]. simpl.
        by apply (bound_copy_mono k h h1 h2 h3). }
    destruct (Hcs h1 Hpre1) as (cs' & h2 & E2 & Hpre2 & Hw' & Hl' & HF).
    rewrite E2. simpl.
    exists (SelectorPromptTemplate d' cs'), h2.
    split; [done|]. split; [by etrans|].
    split. { apply wf_selector. split; [by eapply wf_prefix|done]. }
    split. { by apply has_langchain_selector. }
    apply bound_copy_selector. split; [|done].
    by apply (bound_copy_mono k h h h1 h2).
  - done.
Qed.

(** [partial_format] on a prompt with a Langchain prompt inside: the new
    [LangchainPromptTemplate] is constructed from a selector alone, which
    raises. *)
Lemma partial_format_langchain t :
  forall k h,
    wf h t = true ->
    has_langchain t = true ->
    BasePromptTemplate_partial_format t k h = Raise AttributeError.
Proof.
  induction t as [self|self|d cs IHd IHcs|self]
    using BasePromptTemplate_nested_ind;
    intros k h Hwf Hl; try done.
  apply wf_selector in Hwf as [Hwd Hwcs].
  rewrite SelectorPromptTemplate_partial_format_eq.
  simpl in Hl. destruct (has_langchain d) eqn:Hld.
  { by rewrite (IHd k h Hwd). }
  simpl in Hl.
  destruct (partial_format_bound d k h Hwd Hld)
    as (d' & h1 & E1 & Hpre1 & _).
  rewrite E1. simpl.
  assert (forall h1, h `prefix_of` h1 ->
            conditionals_partial_format cs k h1 = Raise AttributeError)
    as ->; [|done..].
  clear -IHcs Hwcs Hl.
  induction cs as [|[c p] cs IH]; intros h1 Hpre; [done|].
  inversion IHcs as [|? ? IHp IHcs']; subst.
  inversion Hwcs as [|? ? Hwp Hwcs']; subst. simpl in *.
  pose proof (wf_prefix h h1 p Hpre Hwp) as Hwp1.
  destruct (has_langchain p) eqn:Hlp.
  { by rewrite (IHp k h1 Hwp1). }
  destruct (partial_format_bound p k h1 Hwp1 Hlp)
    as (p' & h2 & E & Hpre2 & _).
  rewrite E. simpl.
  rewrite (IH IHcs' Hwcs' Hl h2); [done|by etrans].
Qed.

Lemma select_scan_Forall2 (R : BasePromptTemplate -> BasePromptTemplate -> Prop)
    cs cs' llm d d' :
  R d d' ->
  Forall2 (fun cp cp' => cp.1 = cp'.1 /\ R cp.2 cp'.2) cs cs' ->
  R (select_scan cs llm d) (select_scan cs' llm d').
Proof.
  intros Hd HF.
  induction HF as [|[c p] [c' p'] cs cs' [Hc Hp] _ IH]; simpl; [done|].
  simpl in Hc. subst c'. by destruct (c llm).
Qed.

(** A bound copy renders as the original does with the bindings supplied
    at the call. *)
Lemma bound_copy_format k h h' t t' :
  bound_copy k h h' t t' ->
  forall llm kw,
    BasePromptTemplate_format h' t' llm kw =
    BasePromptTemplate_format h t llm (kw ∪ k).
Proof.
  revert t'.
  induction t as [self|self|d cs IHd IHcs|self]
    using BasePromptTemplate_nested_ind;
    intros [self'|self'|d' cs'|self'] Hb llm kw; try done.
  - by apply Hb.
  - by apply Hb.
  - apply bound_copy_selector in Hb as [Hd HF].
    rewrite !SelectorPromptTemplate_format_select.
    destruct llm as [l|]; simpl; [|by apply IHd].
    apply (select_scan_Forall2
             (fun p p' => forall kw,
                BasePromptTemplate_format h' p' None kw =
                BasePromptTemplate_format h p None (kw ∪ k))).
    + intros kw'. by apply IHd.
    + clear -IHcs HF.
      induction HF as [|[c p] [c' p'] cs cs' [Hc Hb] HF IH]; constructor.
      * inversion IHcs; subst. split; [done|]. simpl in *. eauto.
      * inversion IHcs; subst. eauto.
Qed.

(** ** Chained [partial_format] *)

Lemma union_singleton_override (kw : gmap string string) a v1 v2 :
  (kw ∪ {[a := v2]}) ∪ {[a := v1]} = kw ∪ {[a := v2]}.
Proof.
  apply map_eq. intros i. destruct (decide (i = a)) as [->|Hne].
  - apply lookup_union_l'. apply lookup_union_is_Some. right.
    rewrite lookup_singleton_eq. by eexists.
  - apply lookup_union_l. by apply lookup_singleton_ne.
Qed.

(** Two partial bindings in a row render as the original with both sets of
    bindings supplied at the call, the later set taking precedence. *)
Lemma partial_format_chain h t k1 k2 llm kw :
  wf h t = true ->
  has_langchain t = false ->
  ('(t1, h1) ← BasePromptTemplate_partial_format t k1 h;
   '(t2, h2) ← BasePromptTemplate_partial_format t1 k2 h1;
   BasePromptTemplate_format h2 t2 llm kw) =
  BasePromptTemplate_format h t llm ((kw ∪ k2) ∪ k1).
Proof.
  intros Hwf Hl.
  destruct (partial_format_bound t k1 h Hwf Hl)
    as (t1 & h1 & E1 & Hpre1 & Hwf1 & Hl1 & Hb1).
  destruct (partial_format_bound t1 k2 h1 Hwf1 Hl1)
    as (t2 & h2 & E2 & Hpre2 & Hwf2 & Hl2 & Hb2).
  rewrite E1. simpl. rewrite E2. simpl.
  rewrite (bound_copy_format k2 h1 h2 t1 t2 Hb2).
  by rewrite (bound_copy_format k1 h h1 t t1 Hb1).
Qed.

Lemma partial_format_then_format h t k llm kw :
  wf h t = true ->
  has_langchain t = false ->
  ('(t1, h1) ← BasePromptTemplate_partial_format t k h;
   BasePromptTemplate_format h1 t1 llm kw) =
  BasePromptTemplate_format h t llm (kw ∪ k).
Proof.
  intros Hwf Hl.
  destruct (partial_format_bound t k h Hwf Hl)
    as (t1 & h1 & E1 & Hpre1 & Hwf1 & Hl1 & Hb1).
  rewrite E1. simpl. by rewrite (bound_copy_format k h h1 t t1 Hb1).
Qed.

(** C8: for a prompt of any class, binding [a] to [v1] and then to [v2] by
    two calls of [partial_format] and rendering gives what binding [a] to
    [v2] alone and rendering gives: the same string or the same exception.
    Unless a Langchain prompt is involved (whose [partial_format] raises
    either way), this is what the original renders when [a := v2] is
    supplied at the call below the call's own bindings. *)
Theorem partial_format_twice_keeps_last h t a v1 v2 llm kw :
  wf h t = true ->
  ('(t1, h1) ← BasePromptTemplate_partial_format t {[a := v1]} h;
   '(t2, h2) ← BasePromptTemplate_partial_format t1 {[a := v2]} h1;
   BasePromptTemplate_format h2 t2 llm kw) =
  ('(t2, h2) ← BasePromptTemplate_partial_format t {[a := v2]} h;
   BasePromptTemplate_format h2 t2 llm kw) /\
  (has_langchain t = false ->
   ('(t2, h2) ← BasePromptTemplate_partial_format t {[a := v2]} h;
    BasePromptTemplate_format h2 t2 llm kw) =
   BasePromptTemplate_format h t llm (kw ∪ {[a := v2]})).
Proof.
  intros Hwf. destruct (has_langchain t) eqn:Hl.
  - split; [|done].
    by rewrite !(partial_format_langchain t _ h Hwf Hl).
  - split; [|intros _; by apply partial_format_then_format].
    rewrite partial_format_chain, partial_format_then_format by done.
    by rewrite union_singleton_override.
Qed.

(** ** [SelectorPromptTemplate.partial_format] *)

(** C9, the failing case: a selector that owns a Langchain prompt (here as
    its default prompt) cannot be partially bound.  Binding the Langchain
    prompt constructs a [LangchainPromptTemplate] from a selector alone,
    which raises [AttributeError] (see C3), and the exception ends
    [partial_format] of the selector. *)
Theorem SelectorPromptTemplate_partial_format_langchain self conditionals
    kwargs h :
  BasePromptTemplate_partial_format
    (SelectorPromptTemplate (LangchainPromptTemplateVal self) conditionals)
    kwargs h = Raise AttributeError.
Proof. reflexivity. Qed.

(** C9, the working case (X1): on a selector that owns no Langchain prompt,
    [partial_format] returns a new selector; its default prompt is a bound
    copy of the default prompt, its conditionals are, pair by pair in the
    same order, the same condition with a bound copy of the prompt; every
    object that existed before is unchanged, and the original selector
    renders as before.  The bindings name neither [self] nor [llm], so that
    they can also be supplied at a call of [format]: the new selector then
    renders as the original does with them supplied at the call. *)
Theorem SelectorPromptTemplate_partial_format_bound h d cs kwargs :
  wf h (SelectorPromptTemplate d cs) = true ->
  has_langchain (SelectorPromptTemplate d cs) = false ->
  format_keywords kwargs ->
  exists d' cs' h',
    BasePromptTemplate_partial_format (SelectorPromptTemplate d cs) kwargs h =
      Ok (SelectorPromptTemplate d' cs', h') /\
    h `prefix_of` h' /\
    bound_copy kwargs h h' d d' /\
    Forall2 (fun cp cp' => cp.1 = cp'.1 /\ bound_copy kwargs h h' cp.2 cp'.2)
            cs cs' /\
    wf h' (SelectorPromptTemplate d' cs') = true /\
    (forall llm kw,
       BasePromptTemplate_format h' (SelectorPromptTemplate d cs) llm kw =
       BasePromptTemplate_format h (SelectorPromptTemplate d cs) llm kw) /\
    (forall llm kw,
       BasePromptTemplate_format h' (SelectorPromptTemplate d' cs') llm kw =
       BasePromptTemplate_format h (SelectorPromptTemplate d cs) llm
         (kw ∪ kwargs)).
Proof.
  intros Hwf Hl _.
  destruct (partial_format_bound _ kwargs h Hwf Hl)
    as (t' & h' & E & Hpre & Hwf' & Hl' & Hb).
  assert (exists d' cs', t' = SelectorPromptTemplate d' cs') as (d' & cs' & ->).
  { rewrite SelectorPromptTemplate_partial_format_eq in E.
    apply bind_Ok in E as ([d' h1] & _ & E).
    apply bind_Ok in E as ([cs' h2] & _ & [= <- _]). by eexists _, _. }
  pose proof Hb as [Hbd Hbcs]%bound_copy_selector.
  exists d', cs', h'. split; [done|]. split; [done|]. split; [done|].
  split; [done|]. split; [done|]. split.
  - intros llm kw. by apply format_prefix.
  - intros llm kw. by apply (bound_copy_format kwargs h h').
Qed.

End Theorems.

(** * Properties of the rest of the module *)

(** ** Abstract members *)

Lemma compute_abstract_methods_nil inherited body :
  compute_abstract_methods inherited body = [] <->
  Forall (fun b => is_abstract b = false) body /\
  Forall (fun name => binds body name = true) inherited.
Proof.
  unfold compute_abstract_methods. split.
  - intros [Hown Hinh]%app_nil. split.
    + apply Forall_forall. intros b Hb.
      destruct (is_abstract b) eqn:Ha; [|done].
      assert (bound_name b ∈
                map bound_name (filter (fun b => is_abstract b = true) body))
        as Hin.
      { apply list_elem_of_fmap. exists b. split; [done|].
        by apply list_elem_of_filter. }
      rewrite Hown in Hin. by apply elem_of_nil in Hin.
    + apply Forall_forall. intros name Hname.
      destruct (binds body name) eqn:Hb; [done|].
      assert (name ∈ filter (fun name => binds body name = false) inherited)
        as Hin by (by apply list_elem_of_filter).
      rewrite Hinh in Hin. by apply elem_of_nil in Hin.
  - intros [Hown Hinh]. apply app_nil. split.
    + clear Hinh. induction Hown as [|b body Hb _ IH]; [done|].
      rewrite filter_cons.
      destruct (decide (is_abstract b = true)); [congruence|done].
    + induction Hinh as [|name inherited Hname _ IH]; [done|].
      rewrite filter_cons.
      destruct (decide (binds body name = false)); [congruence|done].
Qed.

(** X2: a class derived from [BasePromptTemplate] can be instantiated
    exactly when its body binds all seven abstract members (and marks none
    of its own abstract).  [PromptTemplate], [ChatPromptTemplate] and
    [LangchainPromptTemplate] assign [metadata], [kwargs] and
    [output_parser] as instance attributes in [__init__] and do not bind them
    in the class body, so the three abstract properties remain and calling
    the class raises [TypeError]; [SelectorPromptTemplate] binds all seven
    and can be instantiated. *)
Theorem abstract_properties_left_unbound :
  (forall body,
     object_new body = InstanceCreated <->
     Forall (fun b => is_abstract b = false) body /\
     Forall (fun name => binds body name = true)
       (map bound_name BasePromptTemplate_body)) /\
  object_new PromptTemplate_body =
    TypeError_abstract ["metadata"; "kwargs"; "output_parser"] /\
  object_new ChatPromptTemplate_body =
    TypeError_abstract ["metadata"; "kwargs"; "output_parser"] /\
  object_new LangchainPromptTemplate_body =
    TypeError_abstract ["metadata"; "kwargs"; "output_parser"] /\
  object_new SelectorPromptTemplate_body = InstanceCreated.
Proof.
  split; [|by repeat split].
  intros body. unfold object_new, abstract_methods_of.
  rewrite <- compute_abstract_methods_nil.
  change (compute_abstract_methods [] BasePromptTemplate_body)
    with (map bound_name BasePromptTemplate_body).
  by destruct (compute_abstract_methods _ body).
Qed.

Section MoreTheorems.
Context `{Collaborators}.
Variable prompt_to_messages : string -> list ChatMessage.

(** ** [SelectorPromptTemplate.format_messages] *)

Lemma SelectorPromptTemplate_format_messages_select h default_prompt
    conditionals llm kwargs :
  BasePromptTemplate_format_messages prompt_to_messages h
    (SelectorPromptTemplate default_prompt conditionals) llm kwargs =
  BasePromptTemplate_format_messages prompt_to_messages h
    (SelectorPromptTemplate__select default_prompt conditionals llm)
    None kwargs.
Proof.
  destruct llm as [l|]; [|done]. simpl.
  induction conditionals as [|[c p] cs IH]; [done|].
  simpl. by destruct (c l).
Qed.

(** X3: [format_messages] of a selector is [format_messages] of the prompt
    [_select] returns, called without the model; [format] and
    [format_messages] of a selector therefore render the same prompt: when
    the selected prompt is a [ChatPromptTemplate], [format] is the
    flattening of [format_messages], and when it is a [PromptTemplate],
    [format_messages] is the conversion of [format], errors included. *)
Theorem SelectorPromptTemplate_format_messages_selected h default_prompt
    conditionals llm kwargs :
  let self := SelectorPromptTemplate default_prompt conditionals in
  BasePromptTemplate_format_messages prompt_to_messages h self llm kwargs =
    BasePromptTemplate_format_messages prompt_to_messages h
      (SelectorPromptTemplate__select default_prompt conditionals llm)
      None kwargs /\
  (forall selected,
     SelectorPromptTemplate__select default_prompt conditionals llm =
       ChatPromptTemplateRef selected ->
     BasePromptTemplate_format h self llm kwargs =
       (messages ← BasePromptTemplate_format_messages prompt_to_messages h
                     self llm kwargs;
        Ok (messages_to_prompt messages))) /\
  (forall selected,
     SelectorPromptTemplate__select default_prompt conditionals llm =
       PromptTemplateRef selected ->
     BasePromptTemplate_format_messages prompt_to_messages h self llm kwargs =
       (prompt ← BasePromptTemplate_format h self llm kwargs;
        Ok (prompt_to_messages prompt))).
Proof.
  intros self. unfold self.
  split; [apply SelectorPromptTemplate_format_messages_select|].
  split; intros prompt Hsel.
  - rewrite SelectorPromptTemplate_format_select,
      SelectorPromptTemplate_format_messages_select, Hsel.
    apply ChatPromptTemplate_format_eq.
  - by rewrite SelectorPromptTemplate_format_select,
      SelectorPromptTemplate_format_messages_select, Hsel.
Qed.

(** X4: the selected prompt is rendered without the model.  When it is
    itself a selector, that selector renders its own default prompt: its
    conditionals are never consulted, whatever the model is. *)
Theorem nested_selector_renders_default h default_prompt conditionals llm
    kwargs inner_default inner_conditionals :
  SelectorPromptTemplate__select default_prompt conditionals llm =
    SelectorPromptTemplate inner_default inner_conditionals ->
  BasePromptTemplate_format h
    (SelectorPromptTemplate default_prompt conditionals) llm kwargs =
    BasePromptTemplate_format h inner_default None kwargs /\
  BasePromptTemplate_format_messages prompt_to_messages h
    (SelectorPromptTemplate default_prompt conditionals) llm kwargs =
    BasePromptTemplate_format_messages prompt_to_messages h inner_default
      None kwargs.
Proof.
  intros Hsel.
  by rewrite SelectorPromptTemplate_format_select,
    SelectorPromptTemplate_format_messages_select, Hsel.
Qed.

(** ** How [partial_format] composes *)

(** X5: two partial bindings in a row render as one partial binding with
    the two dictionaries merged, the later one taking precedence: the same
    string or the same exception, for a prompt of any class. *)
Theorem partial_format_merges h t k1 k2 llm kw :
  wf h t = true ->
  bind_twice_then_format h t k1 k2 llm kw =
  bind_then_format h t (k2 ∪ k1) llm kw.
Proof.
  intros Hwf. unfold bind_twice_then_format, bind_then_format.
  destruct (has_langchain t) eqn:Hl.
  - by rewrite !(partial_format_langchain t _ h Hwf Hl).
  - rewrite partial_format_chain, partial_format_then_format by done.
    by rewrite (assoc_L (∪)).
Qed.

(** X6: partial bindings of different names commute: binding [k1] then
    [k2] renders as binding [k2] then [k1] when no name is bound by both. *)
Theorem partial_format_commutes h t k1 k2 llm kw :
  wf h t = true ->
  k1 ##ₘ k2 ->
  bind_twice_then_format h t k1 k2 llm kw =
  bind_twice_then_format h t k2 k1 llm kw.
Proof.
  intros Hwf Hdisj. unfold bind_twice_then_format.
  destruct (has_langchain t) eqn:Hl.
  - by rewrite !(partial_format_langchain t _ h Hwf Hl).
  - rewrite !partial_format_chain by done.
    by rewrite <- !(assoc_L (∪)), (map_union_comm k2 k1).
Qed.

(** X7: a binding supplied at the call overrides a partial binding of the
    same name: when every name bound by [partial_format] is also among the
    keyword arguments given to [format], the copy renders exactly as the
    original prompt does.  The keyword arguments of [format] name neither
    [self] nor [llm], and so the partial bindings name neither. *)
Theorem call_site_overrides_partial_format h t k llm kw :
  wf h t = true ->
  has_langchain t = false ->
  format_keywords kw ->
  format_keywords k ->
  dom k ⊆ dom kw ->
  bind_then_format h t k llm kw = BasePromptTemplate_format h t llm kw.
Proof.
  intros Hwf Hl _ _ Hdom. unfold bind_then_format.
  rewrite partial_format_then_format by done.
  f_equal. apply map_eq. intros i.
  destruct (kw !! i) as [v|] eqn:Hv.
  - apply lookup_union_Some_l. done.
  - apply lookup_union_None. split; [done|].
    apply not_elem_of_dom. intros Hin%Hdom. by apply not_elem_of_dom in Hv.
Qed.

(** ** The accessors and [format_messages] under [partial_format] *)

Lemma accessors_prefix h h' t :
  h `prefix_of` h' ->
  wf h t = true ->
  BasePromptTemplate_template_vars h' t = BasePromptTemplate_template_vars h t /\
  BasePromptTemplate_kwargs h' t = BasePromptTemplate_kwargs h t.
Proof.
  intros Hpre. induction t as [self|self|d cs IHd IHcs|self]
    using BasePromptTemplate_nested_ind; intros Hwf.
  - destruct (PromptTemplate_frame h h' self Hpre Hwf)
      as (_ & _ & Hv & Hk & _). by split.
  - destruct (ChatPromptTemplate_frame h h' self Hpre Hwf)
      as (_ & _ & Hv & Hk & _). by split.
  - apply wf_selector in Hwf as [Hd _]. simpl. by apply IHd.
  - done.
Qed.

Lemma format_messages_prefix h h' t :
  h `prefix_of` h' ->
  wf h t = true ->
  forall llm kw,
    BasePromptTemplate_format_messages prompt_to_messages h' t llm kw =
    BasePromptTemplate_format_messages prompt_to_messages h t llm kw.
Proof.
  intros Hpre. induction t as [self|self|d cs IHd IHcs|self]
    using BasePromptTemplate_nested_ind; intros Hwf llm kw.
  - destruct (PromptTemplate_frame h h' self Hpre Hwf)
      as (_ & _ & _ & _ & Hf).
    simpl. unfold PromptTemplate_format_messages. simpl. by rewrite Hf.
  - by apply (ChatPromptTemplate_frame h h' self Hpre Hwf).
  - apply wf_selector in Hwf as [Hd Hcs].
    rewrite !SelectorPromptTemplate_format_messages_select.
    destruct llm as [l|]; simpl; [|by apply IHd].
    destruct (select_scan_in cs l d) as [->|[c Hin]]; [by apply IHd|].
    rewrite Forall_forall in IHcs, Hcs.
    apply (IHcs _ Hin). apply (Hcs _ Hin).
  - done.
Qed.

(** The accessors of a bound copy: the placeholders of the original, and
    its bindings overridden by the new ones. *)
Lemma bound_copy_accessors k h h' t t' :
  bound_copy k h h' t t' ->
  BasePromptTemplate_template_vars h' t' =
    BasePromptTemplate_template_vars h t /\
  BasePromptTemplate_kwargs h' t' =
    (stored ← BasePromptTemplate_kwargs h t; Ok (k ∪ stored)).
Proof.
  revert t'.
  induction t as [self|self|d cs IHd IHcs|self]
    using BasePromptTemplate_nested_ind;
    intros [self'|self'|d' cs'|self'] Hb; try done.
  - destruct Hb as (_ & Hv & Hk & _). by split.
  - destruct Hb as (_ & Hv & Hk & _). by split.
  - apply bound_copy_selector in Hb as [Hd _]. simpl. by apply IHd.
Qed.

Lemma bound_copy_format_messages k h h' t t' :
  bound_copy k h h' t t' ->
  forall llm kw,
    BasePromptTemplate_format_messages prompt_to_messages h' t' llm kw =
    BasePromptTemplate_format_messages prompt_to_messages h t llm (kw ∪ k).
Proof.
  revert t'.
  induction t as [self|self|d cs IHd IHcs|self]
    using BasePromptTemplate_nested_ind;
    intros [self'|self'|d' cs'|self'] Hb llm kw; try done.
  - destruct Hb as (_ & _ & _ & Hf).
    simpl. unfold PromptTemplate_format_messages. simpl. by rewrite Hf.
  - destruct Hb as (_ & _ & _ & Hf & _). by apply Hf.
  - apply bound_copy_selector in Hb as [Hd HF].
    rewrite !SelectorPromptTemplate_format_messages_select.
    destruct llm as [l|]; simpl; [|by apply IHd].
    apply (select_scan_Forall2
             (fun p p' => forall kw,
                BasePromptTemplate_format_messages prompt_to_messages h' p'
                  None kw =
                BasePromptTemplate_format_messages prompt_to_messages h p
                  None (kw ∪ k))).
    + intros kw'. by apply IHd.
    + clear -IHcs HF.
      induction HF as [|[c p] [c' p'] cs cs' [Hc Hb] HF IH]; constructor.
      * inversion IHcs; subst. split; [done|]. simpl in *. eauto.
      * inversion IHcs; subst. eauto.
Qed.

(** X8: for a prompt of any class but Langchain, selectors included, and
    bindings that name neither [self] nor [llm] (so that they can also be
    supplied at a call of [format_messages]), [partial_format] returns a
    prompt that reports the placeholders of the original ([template_vars]),
    reports the bindings of the original overridden by the new ones
    ([kwargs]), and whose [format_messages] is that of the original with
    the new bindings supplied at the call; the original reports and renders
    what it did before.  On a selector the two accessors are those of its
    default prompt. *)
Theorem partial_format_accessors h t k :
  wf h t = true ->
  has_langchain t = false ->
  format_keywords k ->
  exists t' h',
    BasePromptTemplate_partial_format t k h = Ok (t', h') /\
    BasePromptTemplate_template_vars h' t' =
      BasePromptTemplate_template_vars h t /\
    BasePromptTemplate_kwargs h' t' =
      (stored ← BasePromptTemplate_kwargs h t; Ok (k ∪ stored)) /\
    (forall llm kw,
       BasePromptTemplate_format_messages prompt_to_messages h' t' llm kw =
       BasePromptTemplate_format_messages prompt_to_messages h t llm
         (kw ∪ k)) /\
    BasePromptTemplate_template_vars h' t =
      BasePromptTemplate_template_vars h t /\
    BasePromptTemplate_kwargs h' t = BasePromptTemplate_kwargs h t /\
    (forall llm kw,
       BasePromptTemplate_format_messages prompt_to_messages h' t llm kw =
       BasePromptTemplate_format_messages prompt_to_messages h t llm kw).
Proof.
  intros Hwf Hl _.
  destruct (partial_format_bound t k h Hwf Hl)
    as (t' & h' & E & Hpre & _ & _ & Hb).
  destruct (bound_copy_accessors k h h' t t' Hb) as [Hv Hk].
  destruct (accessors_prefix h h' t Hpre Hwf) as [Hv0 Hk0].
  exists t', h'. split; [done|]. split; [done|]. split; [done|].
  split; [by apply bound_copy_format_messages|].
  split; [done|]. split; [done|].
  by apply format_messages_prefix.
Qed.

(** ** [ChatPromptTemplate.format_messages] on plain message templates *)

Lemma relevant_kwargs_lookup (kw : gmap string string) vars v :
  v ∈ vars -> relevant_kwargs kw vars !! v = kw !! v.
Proof.
  intros Hin. unfold relevant_kwargs. destruct (kw !! v) as [x|] eqn:E.
  - by apply map_lookup_filter_Some.
  - apply map_lookup_filter_None. by left.
Qed.

Lemma substitute_ext cs (kw kw' : gmap string string) :
  forallb is_plain_chunk cs = true ->
  (forall v, v ∈ chunk_vars cs -> kw !! v = kw' !! v) ->
  substitute cs kw = substitute cs kw'.
Proof.
  induction cs as [|[lit [f|]] cs IH]; intros Hp Hext; [done| |].
  - simpl in Hp. apply andb_prop in Hp as [Hf Hcs].
    unfold is_plain_chunk in Hf. simpl in Hf.
    rewrite chunk_vars_cons_plain in Hext by done.
    cbn [substitute]. rewrite (Hext (field_name f)) by (by left).
    rewrite IH; [done|done|]. intros v Hv. apply Hext. by right.
  - simpl in Hp. cbn [substitute]. by rewrite IH.
Qed.

Lemma format_message_plain kw m :
  is_plain_template (content_or_empty m) = true ->
  exists cs,
    markup_chunks (content_or_empty m) = (cs, None) /\
    get_template_vars (content_or_empty m) = Ok (chunk_vars cs) /\
    ((Forall (fun v => is_Some (kw !! v)) (chunk_vars cs) /\
      format_message kw m = Ok (set_content m (substitute cs kw))) \/
     (exists v, v ∈ chunk_vars cs /\ kw !! v = None /\
                format_message kw m = Raise (KeyError v))).
Proof.
  intros Hp.
  destruct (str_format_plain _ (relevant_kwargs kw []) Hp)
    as (cs & Hcs & Hv & Hall & _).
  destruct (str_format_plain _ (relevant_kwargs kw (chunk_vars cs)) Hp)
    as (cs1 & Hcs1 & _ & _ & Hf).
  rewrite Hcs in Hcs1. injection Hcs1 as <-.
  exists cs. split; [done|]. split; [done|].
  unfold format_message. rewrite Hv. simpl. rewrite Hf.
  destruct (build_string_plain cs (relevant_kwargs kw (chunk_vars cs)) Hall)
    as [[HF Hb]|(v & Hin & Hnone & Hb)]; rewrite Hb; simpl.
  - left. split.
    + apply Forall_forall. intros v Hin.
      rewrite Forall_forall in HF. specialize (HF v Hin).
      by rewrite relevant_kwargs_lookup in HF.
    + do 2 f_equal. apply substitute_ext; [done|].
      intros v Hin. by apply relevant_kwargs_lookup.
  - right. exists v. rewrite relevant_kwargs_lookup in Hnone by done.
    by repeat split.
Qed.

Lemma format_messages_loop_plain h kw ms :
  Forall (plain_message h) ms ->
  forall acc,
  exists vss,
    Forall2 (message_vars h) ms vss /\
    ((Forall (fun v => is_Some (kw !! v)) (concat vss) /\
      exists new, format_messages_loop h kw ms acc = Ok (acc ++ new) /\
                  Forall2 (substituted_message h kw) ms new) \/
     (exists v, v ∈ concat vss /\ kw !! v = None /\
                format_messages_loop h kw ms acc = Raise (KeyError v))).
Proof.
  induction 1 as [|l ms (m & Hm & Hp) _ IH]; intros acc.
  - exists []. split; [constructor|]. left. split; [constructor|].
    exists []. split; [by rewrite app_nil_r|constructor].
  - destruct (format_message_plain kw m Hp)
      as (cs & Hcs & Hv & [[HF Hmsg]|(v & Hin & Hnone & Hmsg)]).
    + destruct (IH (acc ++ [set_content m (substitute cs kw)]))
        as (vss & Hvss & [[HFs (new & Hloop & Hnew)]
                         |(v & Hin & Hnone & Hloop)]).
      * exists (chunk_vars cs :: vss). split.
        { constructor; [by exists m|done]. }
        left. split; [by apply Forall_app|].
        exists (set_content m (substitute cs kw) :: new). split.
        { simpl. rewrite Hm. simpl. rewrite Hmsg. simpl. rewrite Hloop.
          by rewrite <- app_assoc. }
        constructor; [by exists m, cs|done].
      * exists (chunk_vars cs :: vss). split.
        { constructor; [by exists m|done]. }
        right. exists v. split; [apply elem_of_app; by right|].
        split; [done|].
        simpl. rewrite Hm. simpl. rewrite Hmsg. simpl. by rewrite Hloop.
    + destruct (IH acc) as (vss & Hvss & _).
      exists (chunk_vars cs :: vss). split.
      { constructor; [by exists m|done]. }
      right. exists v. split; [apply elem_of_app; by left|].
      split; [done|].
      simpl. rewrite Hm. simpl. by rewrite Hmsg.
Qed.

(** X9: for a [ChatPromptTemplate] whose message contents are plain
    template strings, [format_messages] raises if and only if some
    placeholder reported by [template_vars] has no value in the stored
    bindings overridden by the call's; the exception is then the
    [KeyError] of such a placeholder.  Otherwise it returns one message per
    message template, in order, with the role of the template and its
    content with every placeholder replaced by its value: the filter that
    keeps, for each message, the bindings of its own placeholders hides no
    missing binding and changes no value. *)
Theorem ChatPromptTemplate_format_messages_plain h self llm kwargs p stored
    ms :
  load_ChatPromptTemplate h self = Ok p ->
  load_dict h (cpt_kwargs p) = Ok stored ->
  load_list h (cpt_message_templates p) = Ok ms ->
  Forall (plain_message h) ms ->
  exists vars,
    ChatPromptTemplate_template_vars h self = Ok vars /\
    (raises (ChatPromptTemplate_format_messages h self llm kwargs) <->
     exists v, v ∈ vars /\ merge_kwargs stored kwargs !! v = None) /\
    (forall e,
       ChatPromptTemplate_format_messages h self llm kwargs = Raise e ->
       exists v, e = KeyError v /\ v ∈ vars /\
                 merge_kwargs stored kwargs !! v = None) /\
    ((forall v, v ∈ vars -> is_Some (merge_kwargs stored kwargs !! v)) ->
     exists messages,
       ChatPromptTemplate_format_messages h self llm kwargs = Ok messages /\
       Forall2 (substituted_message h (merge_kwargs stored kwargs))
         ms messages).
Proof.
  intros Hp Hs Hms Hplain.
  rewrite (ChatPromptTemplate_format_messages_eq h self llm kwargs p stored ms)
    by done.
  destruct (format_messages_loop_plain h (merge_kwargs stored kwargs) ms
              Hplain [])
    as (vss & Hvss & Hcases).
  exists (concat vss). split.
  { unfold ChatPromptTemplate_template_vars. rewrite Hp. simpl.
    rewrite Hms. simpl. apply template_vars_loop_Ok. by exists vss. }
  destruct Hcases as [[HF (new & Hloop & Hnew)]|(v & Hin & Hnone & Hloop)];
    rewrite Hloop.
  - rewrite Forall_forall in HF. split; [|split].
    + split.
      * by intros [e He].
      * intros (v & Hin & Hnone). destruct (HF v Hin) as [x Hx]. congruence.
    + done.
    + intros _. by exists new.
  - split; [|split].
    + split; [by exists v|by eexists].
    + intros e [= <-]. by exists v.
    + intros Hall. destruct (Hall v Hin) as [x Hx]. congruence.
Qed.

End MoreTheorems.

(** * The theorems at the example objects *)

Section Instances.

#[local] Existing Instance example_collaborators.

(** The spec's example of per-message isolation, and C1 applied to it: the
    two messages render, and a further key [extra] changes nothing. *)
Lemma ChatPromptTemplate_format_messages_per_message_witness :
  ChatPromptTemplate_format_messages example_chat.2 example_chat.1 None
      example_chat_kwargs =
    Ok [ {| role := "system"; content := Some "You are helpful" |};
         {| role := "user"; content := Some "2+2?" |} ] /\
  ChatPromptTemplate_format_messages example_chat.2 example_chat.1 None
      (<[ "extra" := "x" ]> example_chat_kwargs) =
    ChatPromptTemplate_format_messages example_chat.2 example_chat.1 None
      example_chat_kwargs.
Proof.
  split; [by vm_compute|].
  apply (proj2 (ChatPromptTemplate_format_messages_per_message
                  example_chat.2 example_chat.1 None example_chat_kwargs)).
  intros p ms l vs Hp Hms Hin (m & Hm & Hvs).
  vm_compute in Hp. injection Hp as <-.
  vm_compute in Hms. injection Hms as <-.
  apply elem_of_cons in Hin as [->|Hin].
  { vm_compute in Hm. injection Hm as <-. vm_compute in Hvs.
    injection Hvs as <-. by intros ?%list_elem_of_singleton. }
  apply list_elem_of_singleton in Hin as ->.
  vm_compute in Hm. injection Hm as <-. vm_compute in Hvs.
  injection Hvs as <-. by intros ?%list_elem_of_singleton.
Defined.

(** C7 at the spec's example. *)
Lemma ChatPromptTemplate_format_flattens_witness :
  ChatPromptTemplate_format_messages example_chat.2 example_chat.1 None
      example_chat_kwargs =
    Ok [ {| role := "system"; content := Some "You are helpful" |};
         {| role := "user"; content := Some "2+2?" |} ] /\
  ChatPromptTemplate_format example_chat.2 example_chat.1 None
      example_chat_kwargs =
    Ok (messages_to_prompt
          [ {| role := "system"; content := Some "You are helpful" |};
            {| role := "user"; content := Some "2+2?" |} ]).
Proof.
  split; [by vm_compute|].
  apply ChatPromptTemplate_format_flattens. by vm_compute.
Defined.

(** C10 at a chat prompt whose messages share a placeholder: the shared
    name is listed once per message. *)
Lemma ChatPromptTemplate_template_vars_concat_witness :
  ChatPromptTemplate_template_vars example_chat_twice.2 example_chat_twice.1 =
    Ok ["a"; "a"; "b"].
Proof.
  apply (proj2 (ChatPromptTemplate_template_vars_concat
                  example_chat_twice.2 example_chat_twice.1 ["a"; "a"; "b"])).
  exists {| cpt_message_templates := 2; cpt_kwargs := 3; cpt_metadata := 4;
            cpt_output_parser := None |}, [0; 1], [["a"]; ["a"; "b"]].
  split; [by vm_compute|]. split; [by vm_compute|]. split; [|done].
  constructor.
  { exists {| role := "system"; content := Some "{a}" |}. by vm_compute. }
  constructor; [|constructor].
  exists {| role := "user"; content := Some "{a}{b}" |}. by vm_compute.
Defined.



(** C3 at a failing input: a selector and no template. *)
Lemma LangchainPromptTemplate_init_selector_only :
  LangchainPromptTemplate_init None
    (Some {| lcs_default_prompt := "Hello {name}"; lcs_conditionals := [] |})
    "custom" = Raise AttributeError.
Proof. reflexivity. Qed.

(** C4 at an instance built from a template. *)
Lemma LangchainPromptTemplate_format_unbound_witness :
  exists self,
    LangchainPromptTemplate_init (Some "Hello {name}") None "custom" =
      Ok self /\
    LangchainPromptTemplate_format self (Some "gpt") {[ "name" := "x" ]} =
      Raise (UnboundLocalError "llm") /\
    LangchainPromptTemplate_format_messages self None {[ "name" := "x" ]} =
      Raise (UnboundLocalError "llm").
Proof.
  eexists. split; [reflexivity|].
  split.
  - eapply (proj1 (LangchainPromptTemplate_format_unbound
                     (H := example_collaborators)
                     (Some "Hello {name}") None "custom" _ _ _ eq_refl)).
  - eapply (proj2 (LangchainPromptTemplate_format_unbound
                     (H := example_collaborators)
                     (Some "Hello {name}") None "custom" _ _ _ eq_refl)).
Defined.

(** C5 at the two example prompts: after [partial_format(b="2")] the
    receiver still lacks [b], and the copy has it. *)
Lemma partial_format_does_not_mutate_witness :
  wf_PromptTemplate example_ab.2 example_ab.1 = true /\
  wf_ChatPromptTemplate example_chat.2 example_chat.1 = true /\
  (exists prompt h',
     PromptTemplate_partial_format example_ab.1 {[ "b" := "2" ]} example_ab.2 =
       Ok (prompt, h') /\
     PromptTemplate_format h' example_ab.1 None ∅ = Raise (KeyError "b") /\
     PromptTemplate_format h' prompt None ∅ = Ok "1-2") /\
  (exists prompt h',
     ChatPromptTemplate_partial_format example_chat.1
       {[ "persona" := "helpful" ]} example_chat.2 = Ok (prompt, h') /\
     ChatPromptTemplate_format h' example_chat.1 None {[ "query" := "2+2?" ]} =
       Raise (KeyError "persona") /\
     ChatPromptTemplate_format h' prompt None {[ "query" := "2+2?" ]} =
       Ok "system: You are helpful; user: 2+2?; assistant: ").
Proof.
  split; [done|]. split; [done|]. split.
  - destruct (proj1 (partial_format_does_not_mutate example_ab.2 example_ab.1
                       {[ "b" := "2" ]}) eq_refl)
      as (prompt & h' & E & _ & _ & _ & _ & Hf & _ & _ & _ & _ & Hf').
    exists prompt, h'. split; [done|]. rewrite Hf, Hf'. by vm_compute.
  - destruct (proj2 (partial_format_does_not_mutate example_chat.2
                       example_chat.1 {[ "persona" := "helpful" ]}) eq_refl)
      as (prompt & h' & E & _ & _ & _ & _ & _ & Hf & _ & _ & _ & _ & _ & Hf').
    exists prompt, h'. split; [done|]. rewrite Hf, Hf'. by vm_compute.
Defined.

(** C6 at the example selector: both conditions hold of ["gpt"] and the
    first one's prompt is selected; no condition holds of ["llama"] and
    [format] is that of the default prompt. *)
Lemma SelectorPromptTemplate_select_first_match_witness :
  SelectorPromptTemplate__select (PromptTemplateRef 2)
    [ (String.eqb "gpt", PromptTemplateRef 5);
      (fun l => String.eqb "gpt" l || String.eqb "claude" l,
       PromptTemplateRef 8) ] (Some "gpt") = PromptTemplateRef 5 /\
  BasePromptTemplate_format example_selector.2 example_selector.1
    (Some "llama") {[ "a" := "1" ]} =
  BasePromptTemplate_format example_selector.2 (PromptTemplateRef 2)
    None {[ "a" := "1" ]}.
Proof.
  destruct (SelectorPromptTemplate_select_first_match
              (H := example_collaborators) (PromptTemplateRef 2)
              [ (String.eqb "gpt", PromptTemplateRef 5);
                (fun l => String.eqb "gpt" l || String.eqb "claude" l,
                 PromptTemplateRef 8) ]) as (_ & Hfirst & Hnone & _).
  split.
  - apply (Hfirst "gpt" [] _ _ _ eq_refl); [constructor|done].
  - apply (Hnone "llama"). by repeat constructor.
Defined.

(** C8 at the first example prompt, for the placeholder [b]. *)
Lemma partial_format_twice_keeps_last_witness :
  wf example_ab.2 (PromptTemplateRef example_ab.1) = true /\
  ('(t1, h1) ← BasePromptTemplate_partial_format
                 (PromptTemplateRef example_ab.1) {[ "b" := "1" ]} example_ab.2;
   '(t2, h2) ← BasePromptTemplate_partial_format t1 {[ "b" := "2" ]} h1;
   BasePromptTemplate_format h2 t2 None ∅) = Ok "1-2".
Proof.
  split; [done|].
  destruct (partial_format_twice_keeps_last example_ab.2
              (PromptTemplateRef example_ab.1) "b" "1" "2" None ∅ eq_refl)
    as [-> Hlast].
  rewrite Hlast by done. by vm_compute.
Defined.

(** C9 at a selector whose default prompt is a Langchain prompt. *)
Lemma SelectorPromptTemplate_partial_format_langchain_example :
  exists lp,
    LangchainPromptTemplate_init (Some "Hello {name}") None "custom" = Ok lp /\
    BasePromptTemplate_partial_format
      (SelectorPromptTemplate_init (LangchainPromptTemplateVal lp) None)
      {[ "name" := "x" ]} [] = Raise AttributeError.
Proof. eexists. split; reflexivity. Qed.

(** The working case of C9 at the example selector. *)
Lemma SelectorPromptTemplate_partial_format_bound_witness :
  format_keywords {[ "a" := "1" ]} /\
  exists t' h',
    BasePromptTemplate_partial_format example_selector.1 {[ "a" := "1" ]}
      example_selector.2 = Ok (t', h') /\
    BasePromptTemplate_format h' example_selector.1 (Some "claude") ∅ =
      Raise (KeyError "a") /\
    BasePromptTemplate_format h' t' (Some "claude") ∅ = Ok "second 1".
Proof.
  assert (format_keywords {[ "a" := "1" ]}) as Hkeys by (by vm_compute).
  split; [exact Hkeys|].
  destruct (SelectorPromptTemplate_partial_format_bound
              (H := example_collaborators) example_selector.2
              (PromptTemplateRef 2)
              [ (String.eqb "gpt", PromptTemplateRef 5);
                (fun l => String.eqb "gpt" l || String.eqb "claude" l,
                 PromptTemplateRef 8) ] {[ "a" := "1" ]} eq_refl eq_refl
              Hkeys)
    as (d' & cs' & h' & E & _ & _ & _ & _ & Hf & Hf').
  exists (SelectorPromptTemplate d' cs'), h'. split; [exact E|].
  rewrite Hf, Hf'. by vm_compute.
Defined.

End Instances.

(** * The further theorems at the example objects *)

Section MoreInstances.

#[local] Existing Instance example_collaborators.

(** X3 at the example selector: for the model ["gpt"] the first conditional
    prompt, a [PromptTemplate], is selected, and [format_messages] converts
    what [format] renders. *)
Lemma SelectorPromptTemplate_format_messages_selected_witness :
  BasePromptTemplate_format_messages example_prompt_to_messages
    example_selector.2 example_selector.1 (Some "gpt") {[ "a" := "1" ]} =
  Ok [ {| role := "user"; content := Some "first 1" |} ].
Proof.
  pose proof (SelectorPromptTemplate_format_messages_selected
                (H := example_collaborators) example_prompt_to_messages
                example_selector.2 (PromptTemplateRef 2)
                [ (String.eqb "gpt", PromptTemplateRef 5);
                  (fun l => String.eqb "gpt" l || String.eqb "claude" l,
                   PromptTemplateRef 8) ] (Some "gpt") {[ "a" := "1" ]})
    as Hthm.
  cbv zeta in Hthm. destruct Hthm as (_ & _ & Hprompt).
  change (example_selector.1)
    with (SelectorPromptTemplate (PromptTemplateRef 2)
            [ (String.eqb "gpt", PromptTemplateRef 5);
              (fun l => String.eqb "gpt" l || String.eqb "claude" l,
               PromptTemplateRef 8) ]).
  rewrite (Hprompt 5 eq_refl). by vm_compute.
Defined.

(** X4 at the nested example: the inner selector has a condition that holds
    of every model, and yet its default prompt is rendered. *)
Lemma nested_selector_renders_default_witness :
  SelectorPromptTemplate__select (PromptTemplateRef 2)
    [ (String.eqb "gpt",
       SelectorPromptTemplate (PromptTemplateRef 5)
         [ (fun _ => true, PromptTemplateRef 8) ]) ] (Some "gpt") =
    SelectorPromptTemplate (PromptTemplateRef 5)
      [ (fun _ => true, PromptTemplateRef 8) ] /\
  BasePromptTemplate_format example_nested_selector.2
    example_nested_selector.1 (Some "gpt") ∅ = Ok "inner default" /\
  BasePromptTemplate_format_messages example_prompt_to_messages
    example_nested_selector.2 example_nested_selector.1 (Some "gpt") ∅ =
    Ok [ {| role := "user"; content := Some "inner default" |} ].
Proof.
  split; [reflexivity|].
  destruct (nested_selector_renders_default
              (H := example_collaborators) example_prompt_to_messages
              example_nested_selector.2 (PromptTemplateRef 2)
              [ (String.eqb "gpt",
                 SelectorPromptTemplate (PromptTemplateRef 5)
                   [ (fun _ => true, PromptTemplateRef 8) ]) ]
              (Some "gpt") ∅ (PromptTemplateRef 5)
              [ (fun _ => true, PromptTemplateRef 8) ] eq_refl)
    as [Hformat Hmessages].
  change (example_nested_selector.1)
    with (SelectorPromptTemplate (PromptTemplateRef 2)
            [ (String.eqb "gpt",
               SelectorPromptTemplate (PromptTemplateRef 5)
                 [ (fun _ => true, PromptTemplateRef 8) ]) ]).
  rewrite Hformat, Hmessages. by vm_compute.
Defined.

(** X5 at [PromptTemplate("{a}-{b}", a="1")]: binding [b] to ["2"] and then
    [a] to ["3"] renders as binding both at once. *)
Lemma partial_format_merges_witness :
  wf example_ab.2 (PromptTemplateRef example_ab.1) = true /\
  bind_twice_then_format example_ab.2 (PromptTemplateRef example_ab.1)
    {[ "b" := "2" ]} {[ "a" := "3" ]} None ∅ = Ok "3-2".
Proof.
  split; [reflexivity|].
  rewrite (partial_format_merges (H := example_collaborators) example_ab.2
             (PromptTemplateRef example_ab.1) {[ "b" := "2" ]}
             {[ "a" := "3" ]} None ∅ eq_refl).
  by vm_compute.
Defined.

(** X6 at the chat example: [persona] and [query] bound in either order. *)
Lemma partial_format_commutes_witness :
  wf example_chat.2 (ChatPromptTemplateRef example_chat.1) = true /\
  ({[ "persona" := "helpful" ]} : gmap string string) ##ₘ
    {[ "query" := "2+2?" ]} /\
  bind_twice_then_format example_chat.2 (ChatPromptTemplateRef example_chat.1)
    {[ "persona" := "helpful" ]} {[ "query" := "2+2?" ]} None ∅ =
  bind_twice_then_format example_chat.2 (ChatPromptTemplateRef example_chat.1)
    {[ "query" := "2+2?" ]} {[ "persona" := "helpful" ]} None ∅.
Proof.
  assert (({[ "persona" := "helpful" ]} : gmap string string) ##ₘ
            {[ "query" := "2+2?" ]}) as Hdisj.
  { apply map_disjoint_singleton_l. by apply lookup_singleton_ne. }
  split; [reflexivity|]. split; [exact Hdisj|].
  exact (partial_format_commutes (H := example_collaborators) example_chat.2
           (ChatPromptTemplateRef example_chat.1) {[ "persona" := "helpful" ]}
           {[ "query" := "2+2?" ]} None ∅ eq_refl Hdisj).
Defined.

(** X7 at [PromptTemplate("{a}-{b}", a="1")]: [b] bound to ["2"] by
    [partial_format] and to ["9"] at the call. *)
Lemma call_site_overrides_partial_format_witness :
  wf example_ab.2 (PromptTemplateRef example_ab.1) = true /\
  has_langchain (PromptTemplateRef example_ab.1) = false /\
  format_keywords {[ "b" := "9" ]} /\
  format_keywords {[ "b" := "2" ]} /\
  dom ({[ "b" := "2" ]} : gmap string string) ⊆
    dom ({[ "b" := "9" ]} : gmap string string) /\
  bind_then_format example_ab.2 (PromptTemplateRef example_ab.1)
    {[ "b" := "2" ]} None {[ "b" := "9" ]} = Ok "1-9".
Proof.
  assert (dom ({[ "b" := "2" ]} : gmap string string) ⊆
            dom ({[ "b" := "9" ]} : gmap string string)) as Hdom.
  { by rewrite !dom_singleton_L. }
  assert (format_keywords {[ "b" := "9" ]}) as Hkw by (by vm_compute).
  assert (format_keywords {[ "b" := "2" ]}) as Hk by (by vm_compute).
  split; [reflexivity|]. split; [reflexivity|]. split; [exact Hkw|].
  split; [exact Hk|]. split; [exact Hdom|].
  rewrite (call_site_overrides_partial_format (H := example_collaborators)
             example_ab.2 (PromptTemplateRef example_ab.1) {[ "b" := "2" ]}
             None {[ "b" := "9" ]} eq_refl eq_refl Hkw Hk Hdom).
  by vm_compute.
Defined.

(** X8 at the example selector: after [partial_format(a="1")] the new
    selector reports the placeholder and the binding of its bound default
    prompt, and the original selector reports no binding. *)
Lemma partial_format_accessors_witness :
  wf example_selector.2 example_selector.1 = true /\
  has_langchain example_selector.1 = false /\
  format_keywords {[ "a" := "1" ]} /\
  exists t' h',
    BasePromptTemplate_partial_format example_selector.1 {[ "a" := "1" ]}
      example_selector.2 = Ok (t', h') /\
    BasePromptTemplate_template_vars h' t' = Ok ["a"] /\
    BasePromptTemplate_kwargs h' t' = Ok {[ "a" := "1" ]} /\
    BasePromptTemplate_kwargs h' example_selector.1 = Ok ∅ /\
    BasePromptTemplate_format_messages example_prompt_to_messages h' t'
      (Some "claude") ∅ =
      Ok [ {| role := "user"; content := Some "second 1" |} ].
Proof.
  assert (format_keywords {[ "a" := "1" ]}) as Hkeys by (by vm_compute).
  split; [reflexivity|]. split; [reflexivity|]. split; [exact Hkeys|].
  destruct (partial_format_accessors (H := example_collaborators)
              example_prompt_to_messages example_selector.2
              example_selector.1 {[ "a" := "1" ]} eq_refl eq_refl Hkeys)
    as (t' & h' & E & Hv & Hk & Hm & _ & Hk0 & _).
  exists t', h'. split; [exact E|].
  rewrite Hv, Hk, Hk0, Hm. by vm_compute.
Defined.

(** X9 at the chat example: with [persona] stored and [query] missing,
    [format_messages] raises; with both bound it returns the two messages. *)
Lemma ChatPromptTemplate_format_messages_plain_witness :
  Forall (plain_message example_chat.2) [0; 1] /\
  raises (ChatPromptTemplate_format_messages example_chat.2 example_chat.1
            None {[ "persona" := "helpful" ]}) /\
  exists messages,
    ChatPromptTemplate_format_messages example_chat.2 example_chat.1 None
      example_chat_kwargs = Ok messages /\
    Forall2 (substituted_message example_chat.2 example_chat_kwargs)
      [0; 1] messages.
Proof.
  assert (Forall (plain_message example_chat.2) [0; 1]) as Hplain.
  { repeat constructor; eexists; (split; [reflexivity|by vm_compute]). }
  split; [exact Hplain|]. split.
  - destruct (ChatPromptTemplate_format_messages_plain
                (H := example_collaborators) example_chat.2 example_chat.1
                None {[ "persona" := "helpful" ]} _ _ _
                eq_refl eq_refl eq_refl Hplain)
      as (vars & Hvars & Hraises & _).
    apply Hraises. exists "query". split.
    + vm_compute in Hvars. injection Hvars as <-. by right; left.
    + by vm_compute.
  - destruct (ChatPromptTemplate_format_messages_plain
                (H := example_collaborators) example_chat.2 example_chat.1
                None example_chat_kwargs _ _ _
                eq_refl eq_refl eq_refl Hplain)
      as (vars & Hvars & _ & _ & Hok).
    destruct Hok as (messages & E & HF).
    + vm_compute in Hvars. injection Hvars as <-.
      intros v Hin.
      apply elem_of_cons in Hin as [->|Hin]; [vm_compute; by eexists|].
      apply list_elem_of_singleton in Hin as ->. vm_compute. by eexists.
    + exists messages. split; [exact E|].
      replace (merge_kwargs ∅ example_chat_kwargs) with example_chat_kwargs
        in HF; [exact HF|].
      unfold merge_kwargs. by rewrite (right_id_L ∅ (∪)).
Defined.

End MoreInstances.
